(** * A gRPC blog service over a MongoDB collection

    Shallow embedding of [server/main.go] and of the service declared in
    [proto/blog.proto] (schema and generated Go stubs).

    The four handlers are written as programs of a small free monad whose
    operations are the calls on the package-level collection [blogdb]
    ([InsertOne], [FindOne], [FindOneAndUpdate], [DeleteOne]).  What the
    handlers do with any answer of the driver is therefore a statement
    about the handler alone ([eval], [calls]); what they do against a store
    is obtained by running them on an in-memory model of one collection
    ([store.run]).

    The packages that the server imports are not part of the repository.
    Of them the file models what the handlers use: [encoding/hex] and
    [primitive.ObjectID] with its hexadecimal form, the struct codec of
    [bson] on [BlogItem], the status codes of grpc, and the behaviour of a
    collection on filters by [_id] and on the update operator [$set]. *)

From Stdlib Require Import ZArith NArith Ascii String List Lia.
From Stdlib Require Import Strings.Byte.
From stdpp Require Import base option list vector gmap strings.

Local Open Scope string_scope.

(** ** Go errors met by the program *)

(** The [error] values that reach the handlers, by the package that makes
    them. *)
Inductive error : Type :=
  | InvalidByteError (c : ascii)      (* encoding/hex *)
  | ErrLength                         (* encoding/hex *)
  | ErrInvalidHex                     (* bson/primitive *)
  | ErrNoDocuments                    (* mongo *)
  | WriteException (msg : string)     (* mongo: a write refused by the server *)
  | CommandError (msg : string)       (* mongo: a command refused by the server *)
  | NetworkError (msg : string)       (* mongo: connection, I/O, time-out *)
  | DecodeError (key : string).       (* bson: value of the wrong type *)

#[global] Instance ascii_eq_dec' : EqDecision ascii := ascii_dec.
#[global] Instance byte_eq_dec' : EqDecision byte := Byte.byte_eq_dec.
#[global] Instance error_eq_dec : EqDecision error.
Proof. solve_decision. Defined.

(** ** encoding/hex *)

Module hex.

(** [hextable = "0123456789abcdef"], indexed by a nibble. *)
Definition hextable (n : N) : ascii :=
  if (n <? 10)%N then ascii_of_N (48 + n) else ascii_of_N (97 + (n - 10)).

(** [fromHexChar]: the value of one hexadecimal character, either case. *)
Definition fromHexChar (c : ascii) : option N :=
  let n := N_of_ascii c in
  if ((48 <=? n) && (n <=? 57))%N then Some (n - 48)%N
  else if ((97 <=? n) && (n <=? 102))%N then Some (n - 97 + 10)%N
  else if ((65 <=? n) && (n <=? 70))%N then Some (n - 65 + 10)%N
  else None.

(** The byte [(a << 4) | b] of two nibbles. *)
Definition pack (a b : N) : byte :=
  default x00 (Byte.of_N (N.lor (N.shiftl a 4) b)).

(** [DecodeString]: pairs of characters from the left; a bad character is
    reported before a bad length. *)
Fixpoint DecodeString (s : string) : error + list byte :=
  match s with
  | EmptyString => inr []
  | String c EmptyString =>
      match fromHexChar c with
      | None => inl (InvalidByteError c)
      | Some _ => inl ErrLength
      end
  | String c1 (String c2 rest) =>
      match fromHexChar c1 with
      | None => inl (InvalidByteError c1)
      | Some a =>
          match fromHexChar c2 with
          | None => inl (InvalidByteError c2)
          | Some b =>
              match DecodeString rest with
              | inl e => inl e
              | inr l => inr (pack a b :: l)
              end
          end
      end
  end.

(** [EncodeToString]: two lower-case characters per byte. *)
Fixpoint EncodeToString (l : list byte) : string :=
  match l with
  | [] => EmptyString
  | v :: l' =>
      String (hextable (N.shiftr (Byte.to_N v) 4))
        (String (hextable (N.land (Byte.to_N v) 15)) (EncodeToString l'))
  end.

End hex.

(** ** bson/primitive *)

Module primitive.

(** [type ObjectID [12]byte]. *)
Definition ObjectID : Type := vec byte 12.

#[global] Instance ObjectID_eq_dec : EqDecision ObjectID := _.

(** [NilObjectID] is the zero value. *)
Definition NilObjectID : ObjectID := vreplicate 12 x00.

Definition IsZero (id : ObjectID) : bool := bool_decide (id = NilObjectID).

Definition Hex (id : ObjectID) : string := hex.EncodeToString (vec_to_list id).

(** The array of a slice of exactly twelve bytes. *)
Definition of_slice (b : list byte) : option ObjectID :=
  match b with
  | [b0; b1; b2; b3; b4; b5; b6; b7; b8; b9; b10; b11] =>
      Some [# b0; b1; b2; b3; b4; b5; b6; b7; b8; b9; b10; b11]
  | _ => None
  end.

(** [ObjectIDFromHex] returns the pair of Go: on an error the identifier is
    [NilObjectID].  The strings that parse are those of twenty-four
    hexadecimal characters, of either case. *)
Definition ObjectIDFromHex (s : string) : ObjectID * option error :=
  match hex.DecodeString s with
  | inl err => (NilObjectID, Some err)
  | inr b =>
      match of_slice b with
      | None => (NilObjectID, Some ErrInvalidHex)
      | Some oid => (oid, None)
      end
  end.

End primitive.

(** ** bson *)

Module bson.

(** The BSON values (and Go values behind [interface{}]) that the program
    can meet. *)
Inductive Value : Type :=
  | VObjectID (oid : primitive.ObjectID)
  | VString (s : string)
  | VInt32 (z : Z)
  | VBoolean (b : bool)
  | VNull.

#[global] Instance Value_eq_dec : EqDecision Value.
Proof. solve_decision. Defined.

(** [bson.M], a document as an unordered map from keys to values. *)
Abbreviation M := (gmap string Value).

End bson.

Export bson.

(** ** grpc codes and status *)

Module codes.

Inductive Code : Type :=
  | OK | Canceled | Unknown | InvalidArgument | DeadlineExceeded | NotFound
  | AlreadyExists | PermissionDenied | ResourceExhausted
  | FailedPrecondition | Aborted | OutOfRange | Unimplemented | Internal
  | Unavailable | DataLoss | Unauthenticated.

#[global] Instance Code_eq_dec : EqDecision Code.
Proof. solve_decision. Defined.

End codes.

(** A formatted message is kept as the format of the source with its
    arguments: the text that [fmt] renders is not needed here, the cause
    that the message embeds is. *)
Inductive Arg : Type :=
  | ArgErr (e : error)
  | ArgStr (s : string).

Record Message : Type := Sprintf { format : string; args : list Arg }.

Module status.

Record Status : Type := Errorf { Code : codes.Code; Msg : Message }.

End status.

(** ** blogpb: the messages of [proto/blog.proto] *)

Module blogpb.

Record Blog : Type :=
  { Id : string; AuthorId : string; Title : string; Content : string }.

(** A message field is a pointer: [None] is the nil pointer of a request
    that carries no [blog]. *)
Record CreateBlogReq : Type := { CreateBlogReq_Blog : option Blog }.
Record CreateBlogRes : Type := { CreateBlogRes_Blog : option Blog }.
Record ReadBlogReq : Type := { ReadBlogReq_Id : string }.
Record ReadBlogRes : Type := { ReadBlogRes_Blog : option Blog }.
Record UpdateBlogReq : Type := { UpdateBlogReq_Blog : option Blog }.
Record UpdateBlogRes : Type := { UpdateBlogRes_Blog : option Blog }.
Record DeleteBlogReq : Type := { DeleteBlogReq_Id : string }.
Record DeleteBlogRes : Type := { Success : bool }.
Record ListBlogReq : Type := { }.
Record ListBlogRes : Type := { ListBlogRes_Blog : option Blog }.

(** The generated getters are nil-safe. *)
Definition GetId (x : option Blog) : string :=
  match x with Some b => Id b | None => EmptyString end.
Definition GetAuthorId (x : option Blog) : string :=
  match x with Some b => AuthorId b | None => EmptyString end.
Definition GetTitle (x : option Blog) : string :=
  match x with Some b => Title b | None => EmptyString end.
Definition GetContent (x : option Blog) : string :=
  match x with Some b => Content b | None => EmptyString end.

(** [blog.Id = s] on a pointer that is not nil. *)
Definition set_Id (b : Blog) (s : string) : Blog :=
  {| Id := s; AuthorId := AuthorId b; Title := Title b; Content := Content b |}.

End blogpb.

(** ** The document type of the server *)

(** [type BlogItem struct], with its bson tags [_id,omitempty], [author_id],
    [content], [title]. *)
Record BlogItem : Type :=
  { ID : primitive.ObjectID; AuthorID : string; Content : string; Title : string }.

(** [BlogItem{}] *)
Definition BlogItem_zero : BlogItem :=
  {| ID := primitive.NilObjectID; AuthorID := EmptyString; Content := EmptyString; Title := EmptyString |}.

(** The document that the struct codec writes for a [BlogItem]: [omitempty]
    leaves [_id] out when the identifier is the zero value. *)
Definition Marshal (data : BlogItem) : bson.M :=
  let d : bson.M :=
    {[ "author_id" := VString (AuthorID data);
       "content" := VString (Content data);
       "title" := VString (Title data) ]} in
  if primitive.IsZero (ID data) then d else <["_id" := VObjectID (ID data)]> d.

(** The struct codec reading a document into a [BlogItem]: a key that is
    absent leaves the field as it is.  For a string field the codec takes
    a string, reads null as the empty string and an [ObjectID] as its
    hexadecimal form, and refuses an integer or a boolean.  A [bson.M] has
    no order of keys: when several values are refused, the key that the
    error names is here the first in the order of the struct, which need
    not be the one that the codec meets first in the document. *)
Definition decode_oid (key : string) (doc : bson.M) (old : primitive.ObjectID)
  : error + primitive.ObjectID :=
  match doc !! key with
  | None => inr old
  | Some (VObjectID o) => inr o
  | Some _ => inl (DecodeError key)
  end.

Definition decode_string (key : string) (doc : bson.M) (old : string)
  : error + string :=
  match doc !! key with
  | None => inr old
  | Some (VString s) => inr s
  | Some VNull => inr EmptyString
  | Some (VObjectID o) => inr (primitive.Hex o)
  | Some (VInt32 _) | Some (VBoolean _) => inl (DecodeError key)
  end.

Definition Unmarshal (doc : bson.M) (data : BlogItem) : error + BlogItem :=
  match decode_oid "_id" doc (ID data) with
  | inl e => inl e
  | inr i =>
      match decode_string "author_id" doc (AuthorID data) with
      | inl e => inl e
      | inr a =>
          match decode_string "content" doc (Content data) with
          | inl e => inl e
          | inr c =>
              match decode_string "title" doc (Title data) with
              | inl e => inl e
              | inr t => inr {| ID := i; AuthorID := a; Content := c; Title := t |}
              end
          end
      end
  end.

(** ** mongo: the calls of the driver that the handlers make *)

Module mongo.

Record InsertOneResult : Type := { InsertedID : bson.Value }.
Record DeleteResult : Type := { DeletedCount : Z }.

(** A [SingleResult] holds the error of the call or the document found. *)
Inductive SingleResult : Type :=
  | SingleResult_err (err : error)
  | SingleResult_doc (rdr : bson.M).

(** The method [Decode] of a [SingleResult]. *)
Definition Decode (sr : SingleResult) (v : BlogItem) : error + BlogItem :=
  match sr with
  | SingleResult_err err => inl err
  | SingleResult_doc rdr => Unmarshal rdr v
  end.

(** [options.FindOneAndUpdate()] and its setter; [options.After] is [1]. *)
Record FindOneAndUpdateOptions : Type := { ReturnDocument : option Z }.
Definition FindOneAndUpdate_ : FindOneAndUpdateOptions := {| ReturnDocument := None |}.
Definition SetReturnDocument (rd : Z) (o : FindOneAndUpdateOptions)
  : FindOneAndUpdateOptions := {| ReturnDocument := Some rd |}.
Definition After : Z := 1.

(** The methods of the collection type called on [blogdb], each with the
    type of what it returns.  An update document maps an operator to the
    fields it applies to.  Contexts are left out: a call that a deadline
    or a cancellation cuts short is a call that fails. *)
Inductive Op : Type → Type :=
  | InsertOne (document : bson.M) : Op (error + InsertOneResult)
  | FindOne (filter : bson.M) : Op SingleResult
  | FindOneAndUpdate (filter : bson.M) (update : gmap string bson.M)
      (opts : FindOneAndUpdateOptions) : Op SingleResult
  | DeleteOne (filter : bson.M) : Op (error + DeleteResult).

End mongo.

Export mongo.

(** ** Programs over the collection *)

(** A handler either returns or calls the collection and goes on with the
    answer. *)
Inductive Prog (A : Type) : Type :=
  | Ret (a : A)
  | Call {X : Type} (op : Op X) (k : X → Prog A).

Arguments Ret {A} a.
Arguments Call {A X} op k.

Fixpoint bind {A B : Type} (m : Prog A) (f : A → Prog B) : Prog B :=
  match m with
  | Ret a => f a
  | Call op k => Call op (λ x, bind (k x) f)
  end.

#[global] Instance Prog_ret : MRet Prog := @Ret.
#[global] Instance Prog_bind : MBind Prog := λ A B f m, bind m f.

Definition call {X : Type} (op : Op X) : Prog X := Call op Ret.

(** A driver, seen from a handler, is what it answers to each call.  [eval]
    is the value of a program against a driver and [calls] the calls that
    the program makes on the way. *)
Definition Driver : Type := ∀ X : Type, Op X → X.

Fixpoint eval {A : Type} (h : Driver) (p : Prog A) : A :=
  match p with
  | Ret a => a
  | Call op k => eval h (k (h _ op))
  end.

Fixpoint calls {A : Type} (h : Driver) (p : Prog A) : list (sigT Op) :=
  match p with
  | Ret _ => []
  | Call op k => existT _ op :: calls h (k (h _ op))
  end.

(** A driver that gives the same answer whatever it is asked: the error [e]
    if there is one, and otherwise the inserted key [v], no document found
    and no document deleted. *)
Definition scripted (v : bson.Value) (e : option error) : Driver :=
  λ X op,
    match op in Op X return X with
    | InsertOne _ =>
        match e with Some err => inl err | None => inr {| InsertedID := v |} end
    | FindOne _ => SingleResult_err (default ErrNoDocuments e)
    | FindOneAndUpdate _ _ _ => SingleResult_err (default ErrNoDocuments e)
    | DeleteOne _ =>
        match e with Some err => inl err | None => inr {| DeletedCount := 0 |} end
    end.

(** What a handler gives back: its response, a status error, or a panic of
    the Go runtime. *)
Inductive Panic : Type :=
  | InterfaceConversion       (* a type assertion [x.(T)] that fails *)
  | NilPointerDereference.

Inductive Reply (A : Type) : Type :=
  | Return (res : A)
  | Error (st : status.Status)
  | Panics (p : Panic).

Arguments Return {A} res.
Arguments Error {A} st.
Arguments Panics {A} p.

(** The status code of a reply, when it is a status error. *)
Definition code_of {A : Type} (r : Reply A) : option codes.Code :=
  match r with Error st => Some (status.Code st) | _ => None end.

(** ** server/main.go: the handlers *)

Import primitive.

(** [result.InsertedID.(primitive.ObjectID)] *)
Definition assert_ObjectID (v : bson.Value) : option ObjectID :=
  match v with VObjectID oid => Some oid | _ => None end.

Definition CreateBlog (req : blogpb.CreateBlogReq) : Prog (Reply blogpb.CreateBlogRes) :=
  let blog := blogpb.CreateBlogReq_Blog req in
  let data :=
    {| ID := NilObjectID;
       AuthorID := blogpb.GetAuthorId blog;
       Title := blogpb.GetTitle blog;
       Content := blogpb.GetContent blog |} in
  r ← call (InsertOne (Marshal data));
  match r with
  | inl err =>
      mret (Error (status.Errorf codes.Internal
                     (Sprintf "Internal error: %v" [ArgErr err])))
  | inr result =>
      match assert_ObjectID (InsertedID result) with
      | None => mret (Panics InterfaceConversion)
      | Some oid =>
          match blog with
          | None => mret (Panics NilPointerDereference)
          | Some b =>
              let blog' := blogpb.set_Id b (Hex oid) in
              mret (Return {| blogpb.CreateBlogRes_Blog := Some blog' |})
          end
      end
  end.

Definition ReadBlog (req : blogpb.ReadBlogReq) : Prog (Reply blogpb.ReadBlogRes) :=
  let blogId := blogpb.ReadBlogReq_Id req in
  let '(oid, err) := ObjectIDFromHex blogId in
  match err with
  | Some err =>
      mret (Error (status.Errorf codes.InvalidArgument
                     (Sprintf "Could not convert to ObjectId: %v" [ArgErr err])))
  | None =>
      blogFromDB ← call (FindOne {[ "_id" := VObjectID oid ]});
      match Decode blogFromDB BlogItem_zero with
      | inl err =>
          mret (Error (status.Errorf codes.NotFound
                         (Sprintf "Could not find blog with Object Id %s:%v"
                            [ArgStr blogId; ArgErr err])))
      | inr data =>
          mret (Return {| blogpb.ReadBlogRes_Blog :=
                  Some {| blogpb.Id := Hex oid;
                          blogpb.AuthorId := AuthorID data;
                          blogpb.Title := Title data;
                          blogpb.Content := Content data |} |})
      end
  end.

(** In [UpdateBlog] the status built when the identifier does not parse is
    neither returned nor kept: the handler goes on with the [oid] that
    [ObjectIDFromHex] gave. *)
Definition UpdateBlog (req : blogpb.UpdateBlogReq) : Prog (Reply blogpb.UpdateBlogRes) :=
  let blog := blogpb.UpdateBlogReq_Blog req in
  let id := blogpb.GetId blog in
  let '(oid, err) := ObjectIDFromHex id in
  let _ :=
    match err with
    | Some err =>
        Some (status.Errorf codes.InvalidArgument
                (Sprintf "Could not convert the supplied blog id to a MongoDB ObjectId: %v"
                   [ArgErr err]))
    | None => None
    end in
  let update : bson.M :=
    {[ "author_id" := VString (blogpb.GetAuthorId blog);
       "title" := VString (blogpb.GetTitle blog);
       "content" := VString (blogpb.GetContent blog) ]} in
  let filter : bson.M := {[ "_id" := VObjectID oid ]} in
  result ← call (FindOneAndUpdate filter {[ "$set" := update ]}
                   (SetReturnDocument 1 FindOneAndUpdate_));
  match Decode result BlogItem_zero with
  | inl err =>
      mret (Error (status.Errorf codes.NotFound
                     (Sprintf "Could not find blog with Supplied ID %s: %v"
                        [ArgStr id; ArgErr err])))
  | inr data =>
      mret (Return {| blogpb.UpdateBlogRes_Blog :=
              Some {| blogpb.Id := Hex (ID data);
                      blogpb.AuthorId := AuthorID data;
                      blogpb.Title := Title data;
                      blogpb.Content := Content data |} |})
  end.

Definition DeleteBlog (req : blogpb.DeleteBlogReq) : Prog (Reply blogpb.DeleteBlogRes) :=
  let idAsString := blogpb.DeleteBlogReq_Id req in
  let '(oid, err) := ObjectIDFromHex idAsString in
  match err with
  | Some err =>
      mret (Error (status.Errorf codes.InvalidArgument
                     (Sprintf "Could not convert to ObjectId: %v" [ArgErr err])))
  | None =>
      r ← call (DeleteOne {[ "_id" := VObjectID oid ]});
      match r with
      | inl err =>
          mret (Error (status.Errorf codes.NotFound
                         (Sprintf "Couldn't find/delete blog with id %s : %v"
                            [ArgStr idAsString; ArgErr err])))
      | inr _ => mret (Return {| blogpb.Success := true |})
      end
  end.

(** ** An in-memory model of the collection [mydb.blog]

    The collection is the list of its documents in insertion order; no two
    of them have the same [_id].  What the outside world decides at a call
    is read from [Env]: whether the call fails (connection, I/O, deadline
    of the context), whether a call that fails had been carried out by the
    collection before its error came back (the reply was lost), and the
    identifier that the driver generates for a document sent without
    [_id]. *)

Module store.

Record Env : Type := { fault : option error; fresh : ObjectID; applied : bool }.

Abbreviation Received := (sigT Op).

Record World : Type :=
  { docs : list bson.M;         (* the documents of the collection *)
    log : list Received;           (* the calls received so far *)
    env : nat → Env }.          (* the decisions of the world, by call number *)

(** The decisions for the next call. *)
Definition now (w : World) : Env := env w (length (log w)).

(** A filter of plain key/value pairs selects the documents that carry each
    pair. *)
Definition Matches (filter d : bson.M) : Prop :=
  map_Forall (λ k v, d !! k = Some v) filter.

#[global] Instance Matches_dec filter d : Decision (Matches filter d) := _.

Definition insert_one (e : Env) (document : bson.M) (ds : list bson.M)
  : (error + InsertOneResult) * list bson.M :=
  let id :=
    match document !! "_id" with
    | Some v => v
    | None => VObjectID (fresh e)
    end in
  if decide (Exists (λ d : bson.M, d !! "_id" = Some id) ds)
  then (inl (WriteException "E11000 duplicate key error"), ds)
  else (inr {| InsertedID := id |}, (ds ++ [<["_id" := id]> document])%list).

Definition find_one (filter : bson.M) (ds : list bson.M) : SingleResult :=
  match list_find (Matches filter) ds with
  | Some (_, d) => SingleResult_doc d
  | None => SingleResult_err ErrNoDocuments
  end.

(** Of the update operators only [$set] is interpreted: it writes the given
    fields over the document, and the server refuses a change of [_id].
    Any other update document is outside this model and is answered by a
    command error. *)
Definition apply_update (update : gmap string bson.M) (d : bson.M) : error + bson.M :=
  match update !! "$set" with
  | Some fields =>
      if decide (dom update ⊆ ({[ "$set" ]} : gset string)) then
        match fields !! "_id" with
        | Some v =>
            if decide (d !! "_id" = Some v) then inr (fields ∪ d)
            else inl (WriteException "the immutable field _id would be modified")
        | None => inr (fields ∪ d)
        end
      else inl (CommandError "update operator outside the model")
  | None => inl (CommandError "update operator outside the model")
  end.

Definition find_one_and_update (filter : bson.M) (update : gmap string bson.M)
    (opts : FindOneAndUpdateOptions) (ds : list bson.M)
  : SingleResult * list bson.M :=
  match list_find (Matches filter) ds with
  | None => (SingleResult_err ErrNoDocuments, ds)
  | Some (i, d) =>
      match apply_update update d with
      | inl err => (SingleResult_err err, ds)
      | inr d' =>
          let returned :=
            if decide (ReturnDocument opts = Some After) then d' else d in
          (SingleResult_doc returned, <[i := d']> ds)
      end
  end.

Definition delete_one (filter : bson.M) (ds : list bson.M)
  : (error + DeleteResult) * list bson.M :=
  match list_find (Matches filter) ds with
  | Some (i, _) => (inr {| DeletedCount := 1 |}, delete i ds)
  | None => (inr {| DeletedCount := 0 |}, ds)
  end.

(** One call on the collection. *)
Definition perform {X : Type} (op : Op X) (e : Env) (ds : list bson.M)
  : X * list bson.M :=
  match op in Op X return X * list bson.M with
  | InsertOne document =>
      match fault e with
      | Some err => (inl err, if applied e then (insert_one e document ds).2 else ds)
      | None => insert_one e document ds
      end
  | FindOne filter =>
      match fault e with
      | Some err => (SingleResult_err err, ds)
      | None => (find_one filter ds, ds)
      end
  | FindOneAndUpdate filter update opts =>
      match fault e with
      | Some err =>
          (SingleResult_err err,
           if applied e then (find_one_and_update filter update opts ds).2 else ds)
      | None => find_one_and_update filter update opts ds
      end
  | DeleteOne filter =>
      match fault e with
      | Some err => (inl err, if applied e then (delete_one filter ds).2 else ds)
      | None => delete_one filter ds
      end
  end.

(** Running a program against the collection. *)
Fixpoint run {A : Type} (p : Prog A) (w : World) : A * World :=
  match p with
  | Ret a => (a, w)
  | Call op k =>
      let '(x, ds) := perform op (now w) (docs w) in
      run (k x) {| docs := ds; log := (log w ++ [existT _ op])%list; env := env w |}
  end.

(** A world in which no call fails and the driver generates the given
    identifiers in turn. *)
Definition quiet (ids : nat → ObjectID) : nat → Env :=
  λ n, {| fault := None; fresh := ids n; applied := false |}.

(** The documents of a collection are told apart by [_id]. *)
Definition ids (ds : list bson.M) : list (option bson.Value) :=
  (λ d : bson.M, d !! "_id") <$> ds.

Definition unique_ids (ds : list bson.M) : Prop := NoDup (ids ds).

(** The identifier [oid] is the [_id] of a document of the collection. *)
Definition present (oid : ObjectID) (ds : list bson.M) : Prop :=
  Exists (λ d : bson.M, d !! "_id" = Some (VObjectID oid)) ds.

#[global] Instance present_dec oid ds : Decision (present oid ds) := _.

End store.

Import store.

(** ** The service of [proto/blog.proto] and the server type *)

Module service.

Inductive MessageType : Type :=
  | TBlog | TCreateBlogReq | TCreateBlogRes | TReadBlogReq | TReadBlogRes
  | TUpdateBlogReq | TUpdateBlogRes | TDeleteBlogReq | TDeleteBlogRes
  | TListBlogReq | TListBlogRes.

#[global] Instance MessageType_eq_dec : EqDecision MessageType.
Proof. solve_decision. Defined.

(** One [rpc] line of the schema; [streams] is set by the keyword [stream]
    before the response type. *)
Record Rpc : Type :=
  { rpc_name : string; input : MessageType; output : MessageType; streams : bool }.

(** [service BlogService] as the schema has it. *)
Definition BlogService : list Rpc :=
  [ {| rpc_name := "CreateBlog"; input := TCreateBlogReq; output := TCreateBlogRes; streams := false |};
    {| rpc_name := "ReadBlog"; input := TReadBlogReq; output := TReadBlogRes; streams := false |};
    {| rpc_name := "UpdateBlog"; input := TUpdateBlogReq; output := TUpdateBlogRes; streams := false |};
    {| rpc_name := "DeleteBlog"; input := TDeleteBlogReq; output := TDeleteBlogRes; streams := false |};
    {| rpc_name := "ListBlog"; input := TListBlogReq; output := TListBlogReq; streams := false |} ].

Definition rpc (name : string) : option Rpc :=
  snd <$> list_find (λ r, rpc_name r = name) BlogService.

(** [_BlogService_serviceDesc]: the method names that the generated code
    routes, and its streams. *)
Definition serviceDesc_Methods : list string :=
  [ "CreateBlog"; "ReadBlog"; "UpdateBlog"; "DeleteBlog"; "ListBlog" ].
Definition serviceDesc_Streams : list string := [].

(** The methods that [server/main.go] defines on its type
    [BlogServiceServer]; the text of [ListBlogs] is a comment. *)
Inductive Handler : Type := HCreateBlog | HReadBlog | HUpdateBlog | HDeleteBlog.

Definition method_name (h : Handler) : string :=
  match h with
  | HCreateBlog => "CreateBlog"
  | HReadBlog => "ReadBlog"
  | HUpdateBlog => "UpdateBlog"
  | HDeleteBlog => "DeleteBlog"
  end.

Definition req_type (h : Handler) : Type :=
  match h with
  | HCreateBlog => blogpb.CreateBlogReq
  | HReadBlog => blogpb.ReadBlogReq
  | HUpdateBlog => blogpb.UpdateBlogReq
  | HDeleteBlog => blogpb.DeleteBlogReq
  end.

Definition res_type (h : Handler) : Type :=
  match h with
  | HCreateBlog => blogpb.CreateBlogRes
  | HReadBlog => blogpb.ReadBlogRes
  | HUpdateBlog => blogpb.UpdateBlogRes
  | HDeleteBlog => blogpb.DeleteBlogRes
  end.

Definition handle (h : Handler) : req_type h → Prog (Reply (res_type h)) :=
  match h with
  | HCreateBlog => CreateBlog
  | HReadBlog => ReadBlog
  | HUpdateBlog => UpdateBlog
  | HDeleteBlog => DeleteBlog
  end.

End service.

(** ** server/main.go: [main] *)

Module startup.

(** A connected client and the collection obtained from it. *)
Record Client : Type := { uri : string }.
Record Collection : Type := { client : Client; database : string; name : string }.

(** The package-level variables [db] and [blogdb]; a nil pointer is [None].
    [mongoCtx] is the background context throughout. *)
Record Globals : Type := { db : option Client; blogdb : option Collection }.

(** The values of the package-level variables when [main] starts. *)
Definition initial : Globals := {| db := None; blogdb := None |}.

(** What the outside world decides during a run of [main]. *)
Record World : Type :=
  { listen : option error;      (* the error of [net.Listen] *)
    connect : option error;     (* the error of [mongo.Connect] *)
    ping : option error;        (* the error of a ping that is sent *)
    signal : bool;              (* a shutdown signal arrives *)
    close : option error }.     (* the error of [listener.Close] *)

Inductive Event : Type :=
  | Println (s : string)
  | Listen (addr : string)
  | NewServer
  | RegisterBlogServiceServer
  | Connect (uri : string)
  | Ping (c : Client) (answered : bool)
  | GoServe                     (* [go func() { grpcServer.Serve(listener) ... }()] *)
  | Notify
  | Stop
  | Close
  | Disconnect (c : Client).

#[global] Instance Client_eq_dec : EqDecision Client.
Proof. solve_decision. Defined.
#[global] Instance Event_eq_dec : EqDecision Event.
Proof. solve_decision. Defined.

(** How a run of [main] ends. *)
Inductive Outcome : Type :=
  | Fatalf (msg : Message)      (* [log.Fatalf]: the process exits at once *)
  | Crash (p : Panic)           (* a panic of the runtime ends the process *)
  | Waiting                     (* blocked on the signal channel, serving *)
  | Returns.

(** [main], with the events of the run in order.  The goroutine that serves
    is the event [GoServe]; what it does next to [main] is not followed.
    After the [go] statement the model follows [main] alone and takes the
    arrival of a signal as one decision of the world: which signals the
    channel can receive, and the end of the process by the [log.Fatalf] of
    the goroutine, are not modelled, so that the statements below stop at
    the start of the server and say nothing of when [main] returns. *)
Definition main (e : World) (g : Globals) : Outcome * list Event * Globals :=
  let t := [Println "Starting server on port : 4000..."; Listen ":4000"] in
  match listen e with
  | Some err =>
      (Fatalf (Sprintf "Failed to listen to the server port: 4000 , %v" [ArgErr err]), t, g)
  | None =>
      let t := t ++ [NewServer; RegisterBlogServiceServer;
                     Println "Connecting to MongoDB...";
                     Connect "mongodb://localhost:27017"] in
      (* client, err := mongo.Connect(...): [client] is a local variable *)
      match connect e with
      | Some err => (Fatalf (Sprintf "Failed to connect to mongo: " [ArgErr err]), t, g)
      | None =>
          let client := {| uri := "mongodb://localhost:27017" |} in
          (* err = db.Ping(mongoCtx, nil) *)
          match db g with
          | None => (Crash NilPointerDereference, t, g)
          | Some c =>
              match ping e with
              | Some err =>
                  (Fatalf (Sprintf "Could not connect to MongoDB: %v" [ArgErr err]),
                   t ++ [Ping c false], g)
              | None =>
                  let t := t ++ [Ping c true; Println "Connected to MongoDB.!"] in
                  (* blogdb = db.Database("mydb").Collection("blog") *)
                  let g := {| db := db g;
                              blogdb := Some {| client := c; database := "mydb"; name := "blog" |} |} in
                  let t := t ++ [GoServe;
                                 Println "Server  started successfully on port:4000";
                                 Notify; Notify] in
                  if signal e then
                    let t := t ++ [Println "\n Stopping the server..."; Stop; Close] in
                    let t :=
                      match close e with
                      | Some _ => t ++ [Println "Listener not close properly"]
                      | None => t
                      end in
                    (Returns,
                     t ++ [Println "Closing MongoDB connection"; Disconnect c;
                           Println "All command executed, done.!"], g)
                  else (Waiting, t, g)
              end
          end
      end
  end%list.

End startup.

(** ** Auxiliary definitions for the statements *)

(** The filter of the handlers: the document whose [_id] is [oid]. *)
Definition by_id (oid : ObjectID) : bson.M := {[ "_id" := VObjectID oid ]}.

(** The call that [UpdateBlog] makes for the request [blog] once the
    identifier has become [oid]. *)
Definition update_fields (blog : option blogpb.Blog) : bson.M :=
  {[ "author_id" := VString (blogpb.GetAuthorId blog);
     "title" := VString (blogpb.GetTitle blog);
     "content" := VString (blogpb.GetContent blog) ]}.

Definition update_op (oid : ObjectID) (blog : option blogpb.Blog) : Op SingleResult :=
  FindOneAndUpdate (by_id oid) {[ "$set" := update_fields blog ]}
    (SetReturnDocument 1 FindOneAndUpdate_).

Definition update_call (oid : ObjectID) (blog : option blogpb.Blog) : sigT Op :=
  existT _ (update_op oid blog).

(** The document that [CreateBlog] sends for the request [blog]. *)
Definition create_doc (blog : option blogpb.Blog) : bson.M :=
  {[ "author_id" := VString (blogpb.GetAuthorId blog);
     "content" := VString (blogpb.GetContent blog);
     "title" := VString (blogpb.GetTitle blog) ]}.

(** The failure kinds of the specification and the status code that its
    section on the handlers gives to each: written from the specification,
    to be compared with the handlers. *)
Inductive Failure : Type := InvalidIdentifier | NotFound | StoreFailure.

Definition spec_status_code (f : Failure) : codes.Code :=
  match f with
  | InvalidIdentifier => codes.InvalidArgument
  | NotFound => codes.NotFound
  | StoreFailure => codes.Internal
  end.

(** The kind of an error, in the taxonomy of the specification: a malformed
    identifier string, no document for the identifier, or any I/O or
    driver-level error. *)
Definition spec_failure_kind (err : error) : Failure :=
  match err with
  | InvalidByteError _ | ErrLength | ErrInvalidHex => InvalidIdentifier
  | ErrNoDocuments => NotFound
  | WriteException _ | CommandError _ | NetworkError _ | DecodeError _ => StoreFailure
  end.

(** Sample data of the examples: an identifier, a blog and an empty
    collection in a world without failures that generates that identifier. *)
Definition oid1 : ObjectID :=
  [# x5f; x00; xab; x01; x02; x03; x04; x05; x06; x07; xfe; xff].

Definition hello : blogpb.Blog :=
  {| blogpb.Id := "my-own-id"; blogpb.AuthorId := "u1";
     blogpb.Title := "Hello"; blogpb.Content := "World" |}.

Definition empty_world : World :=
  {| docs := []; log := []; env := quiet (λ _, oid1) |}.

(** A run that ends by [log.Fatalf] or by a panic: the process is gone at
    that point. *)
Definition terminated (o : startup.Outcome) : Prop :=
  match o with
  | startup.Fatalf _ | startup.Crash _ => True
  | startup.Waiting | startup.Returns => False
  end.

(** The trace check behind the start-up gate: every [GoServe] comes after
    a ping that was answered. *)
Fixpoint gated (pinged : bool) (t : list startup.Event) : bool :=
  match t with
  | [] => true
  | startup.Ping _ true :: t' => gated true t'
  | startup.GoServe :: t' => pinged && gated pinged t'
  | _ :: t' => gated pinged t'
  end.

(** A world in which [mongo.Connect] gives an error, and one in which
    everything answers. *)
Definition connect_refused : startup.World :=
  {| startup.listen := None;
     startup.connect := Some (NetworkError "connection refused");
     startup.ping := None;
     startup.signal := false;
     startup.close := None |}.

Definition all_well : startup.World :=
  {| startup.listen := None;
     startup.connect := None;
     startup.ping := None;
     startup.signal := false;
     startup.close := None |}.

(** The response of a reply, when it is one. *)
Definition response_of {A : Type} (r : Reply A) : option A :=
  match r with Return res => Some res | _ => None end.

(** ** The generated server stubs of [proto/blog.proto] *)

Module pb.

(** A message behind [interface{}]. *)
Inductive Message : Type :=
  | MCreateBlogReq (m : blogpb.CreateBlogReq)
  | MCreateBlogRes (m : blogpb.CreateBlogRes)
  | MReadBlogReq (m : blogpb.ReadBlogReq)
  | MReadBlogRes (m : blogpb.ReadBlogRes)
  | MUpdateBlogReq (m : blogpb.UpdateBlogReq)
  | MUpdateBlogRes (m : blogpb.UpdateBlogRes)
  | MDeleteBlogReq (m : blogpb.DeleteBlogReq)
  | MDeleteBlogRes (m : blogpb.DeleteBlogRes)
  | MListBlogReq (m : blogpb.ListBlogReq)
  | MListBlogRes (m : blogpb.ListBlogRes).

(** The type assertions of the stubs on the request they are handed. *)
Definition asCreateBlogReq (m : Message) : option blogpb.CreateBlogReq :=
  match m with MCreateBlogReq r => Some r | _ => None end.
Definition asReadBlogReq (m : Message) : option blogpb.ReadBlogReq :=
  match m with MReadBlogReq r => Some r | _ => None end.
Definition asUpdateBlogReq (m : Message) : option blogpb.UpdateBlogReq :=
  match m with MUpdateBlogReq r => Some r | _ => None end.
Definition asDeleteBlogReq (m : Message) : option blogpb.DeleteBlogReq :=
  match m with MDeleteBlogReq r => Some r | _ => None end.
Definition asListBlogReq (m : Message) : option blogpb.ListBlogReq :=
  match m with MListBlogReq r => Some r | _ => None end.

(** A value of the interface [error]: a status error or another error. *)
Inductive GoError : Type :=
  | OfStatus (st : status.Status)
  | Plain (e : error).

(** The pair [(interface{}, error)] that a stub returns, or its panic. *)
Inductive Result : Type :=
  | Value (m : Message)
  | Fails (err : GoError)
  | Panicking (p : Panic).

Definition of_reply {A : Type} (inj : A → Message) (r : Reply A) : Result :=
  match r with
  | Return res => Value (inj res)
  | Error st => Fails (OfStatus st)
  | Panics p => Panicking p
  end.

(** [type BlogServiceServer interface]: the five methods, [ListBlog] with
    its request type as response type. *)
Record BlogServiceServer : Type :=
  { srv_CreateBlog : blogpb.CreateBlogReq → Prog (Reply blogpb.CreateBlogRes);
    srv_ReadBlog : blogpb.ReadBlogReq → Prog (Reply blogpb.ReadBlogRes);
    srv_UpdateBlog : blogpb.UpdateBlogReq → Prog (Reply blogpb.UpdateBlogRes);
    srv_DeleteBlog : blogpb.DeleteBlogReq → Prog (Reply blogpb.DeleteBlogRes);
    srv_ListBlog : blogpb.ListBlogReq → Prog (Reply blogpb.ListBlogReq) }.

(** The value [srv interface{}] given to a stub: one whose type has the
    five methods, or any other, on which [srv.(BlogServiceServer)] panics. *)
Inductive Server : Type :=
  | Implementing (s : BlogServiceServer)
  | NotImplementing.

(** [UnimplementedBlogServiceServer] *)
Definition unimplemented {A : Type} (method : string) : Prog (Reply A) :=
  Ret (Error (status.Errorf codes.Unimplemented (Sprintf method []))).

Definition UnimplementedBlogServiceServer : BlogServiceServer :=
  {| srv_CreateBlog := λ _, unimplemented "method CreateBlog not implemented";
     srv_ReadBlog := λ _, unimplemented "method ReadBlog not implemented";
     srv_UpdateBlog := λ _, unimplemented "method UpdateBlog not implemented";
     srv_DeleteBlog := λ _, unimplemented "method DeleteBlog not implemented";
     srv_ListBlog := λ _, unimplemented "method ListBlog not implemented" |}.

(** [dec func(interface{}) error] fills the message it is given or fails. *)
Definition Decoder : Type := ∀ T : Type, T → GoError + T.

Record UnaryServerInfo : Type := { info_Server : Server; FullMethod : string }.

Definition UnaryHandler : Type := Message → Prog Result.

Definition UnaryServerInterceptor : Type :=
  Message → UnaryServerInfo → UnaryHandler → Prog Result.

(** The body that the five stubs of the service share.  They
    differ in the request type ([zero] is [new(T)], [inj] and [as_] go to
    and from [interface{}]), in the method of the server that they call
    and in the name that they give to the interceptor. *)
Definition unary {Req Res : Type}
    (zero : Req) (inj : Req → Message) (as_ : Message → option Req)
    (out : Res → Message)
    (method : BlogServiceServer → Req → Prog (Reply Res)) (fullMethod : string)
    (srv : Server) (dec : Decoder) (interceptor : option UnaryServerInterceptor)
  : Prog Result :=
  match dec _ zero with
  | inl err => Ret (Fails err)
  | inr in_ =>
      match interceptor with
      | None =>
          match srv with
          | NotImplementing => Ret (Panicking InterfaceConversion)
          | Implementing s => r ← method s in_; Ret (of_reply out r)
          end
      | Some interceptor =>
          let info := {| info_Server := srv; FullMethod := fullMethod |} in
          let handler : UnaryHandler := λ req,
            match srv with
            | NotImplementing => Ret (Panicking InterfaceConversion)
            | Implementing s =>
                match as_ req with
                | None => Ret (Panicking InterfaceConversion)
                | Some req => r ← method s req; Ret (of_reply out r)
                end
            end in
          interceptor (inj in_) info handler
      end
  end.

Definition StubHandler : Type :=
  Server → Decoder → option UnaryServerInterceptor → Prog Result.

Definition _BlogService_CreateBlog_Handler : StubHandler :=
  unary {| blogpb.CreateBlogReq_Blog := None |} MCreateBlogReq asCreateBlogReq
    MCreateBlogRes srv_CreateBlog "/blog.BlogService/CreateBlog".

Definition _BlogService_ReadBlog_Handler : StubHandler :=
  unary {| blogpb.ReadBlogReq_Id := EmptyString |} MReadBlogReq asReadBlogReq
    MReadBlogRes srv_ReadBlog "/blog.BlogService/ReadBlog".

Definition _BlogService_UpdateBlog_Handler : StubHandler :=
  unary {| blogpb.UpdateBlogReq_Blog := None |} MUpdateBlogReq asUpdateBlogReq
    MUpdateBlogRes srv_UpdateBlog "/blog.BlogService/UpdateBlog".

Definition _BlogService_DeleteBlog_Handler : StubHandler :=
  unary {| blogpb.DeleteBlogReq_Id := EmptyString |} MDeleteBlogReq asDeleteBlogReq
    MDeleteBlogRes srv_DeleteBlog "/blog.BlogService/DeleteBlog".

Definition _BlogService_ListBlog_Handler : StubHandler :=
  unary (blogpb.Build_ListBlogReq) MListBlogReq asListBlogReq
    MListBlogReq srv_ListBlog "/blog.BlogService/ListBlog".

(** [_BlogService_serviceDesc] *)
Definition ServiceName : string := "blog.BlogService".

Definition Methods : list (string * StubHandler) :=
  [ ("CreateBlog", _BlogService_CreateBlog_Handler);
    ("ReadBlog", _BlogService_ReadBlog_Handler);
    ("UpdateBlog", _BlogService_UpdateBlog_Handler);
    ("DeleteBlog", _BlogService_DeleteBlog_Handler);
    ("ListBlog", _BlogService_ListBlog_Handler) ].

(** An interceptor that hands the request it received to the handler, and
    one that hands it the message [m] instead. *)
Definition forwarding : UnaryServerInterceptor := λ req _ handler, handler req.
Definition handing (m : Message) : UnaryServerInterceptor := λ _ _ handler, handler m.

(** A decoder that fails with [err], and one that leaves the message as
    it is. *)
Definition failing (err : GoError) : Decoder := λ T _, inl err.
Definition leaving : Decoder := λ T x, inr x.

End pb.

(** A stub is transparent when, on a request that decodes, without
    interceptor or with the forwarding one, it gives what the method of
    the server gives and makes the calls that the method makes. *)
Definition transparent {Req Res : Type} (stub : pb.StubHandler) (zero : Req)
    (out : Res → pb.Message)
    (method : pb.BlogServiceServer → Req → Prog (Reply Res)) : Prop :=
  ∀ (s : pb.BlogServiceServer) (dec : pb.Decoder) (h : Driver) (req : Req)
    (interceptor : option pb.UnaryServerInterceptor),
    dec _ zero = inr req →
    interceptor = None ∨ interceptor = Some pb.forwarding →
    eval h (stub (pb.Implementing s) dec interceptor)
    = pb.of_reply out (eval h (method s req))
    ∧ calls h (stub (pb.Implementing s) dec interceptor) = calls h (method s req).

(** A server type that has the four handlers of [server/main.go] and some
    method [ListBlog]. *)
Definition with_ListBlog
    (list : blogpb.ListBlogReq → Prog (Reply blogpb.ListBlogReq))
  : pb.BlogServiceServer :=
  {| pb.srv_CreateBlog := CreateBlog;
     pb.srv_ReadBlog := ReadBlog;
     pb.srv_UpdateBlog := UpdateBlog;
     pb.srv_DeleteBlog := DeleteBlog;
     pb.srv_ListBlog := list |}.

(** The string that the codec leaves in a string field for the value of a
    key that is absent or holds a string. *)
Definition string_of (v : option bson.Value) : string :=
  match v with Some (VString s) => s | _ => EmptyString end.

(** A value that the codec reads into a string field: none or a string. *)
Definition absent_or_string (v : option bson.Value) : Prop :=
  match v with None | Some (VString _) => True | Some _ => False end.

(** A value that the codec refuses for a string field: an integer or a
    boolean. *)
Definition integer_or_boolean (v : option bson.Value) : Prop :=
  match v with Some (VInt32 _) | Some (VBoolean _) => True | _ => False end.

(** The method whose request type a message has, if it is a request. *)
Definition request_of (m : pb.Message) : option string :=
  match m with
  | pb.MCreateBlogReq _ => Some "CreateBlog"
  | pb.MReadBlogReq _ => Some "ReadBlog"
  | pb.MUpdateBlogReq _ => Some "UpdateBlog"
  | pb.MDeleteBlogReq _ => Some "DeleteBlog"
  | pb.MListBlogReq _ => Some "ListBlog"
  | _ => None
  end.

(** A collection with one blog, in a world where every call is carried
    out and its reply is lost. *)
Definition lost_reply_world : World :=
  {| docs := [<["_id" := VObjectID oid1]> (create_doc (Some hello))];
     log := [];
     env := λ _, {| fault := Some (NetworkError "context deadline exceeded");
                    fresh := oid1; applied := true |} |}.

(** A collection with the blog [hello] under [oid1], in a world without
    failures, and a request that gives it another title. *)
Definition one_blog_world : World :=
  {| docs := [<["_id" := VObjectID oid1]> (create_doc (Some hello))];
     log := []; env := quiet (λ _, oid1) |}.

Definition retitled : blogpb.Blog :=
  {| blogpb.Id := "5f00ab01020304050607feff"; blogpb.AuthorId := "u1";
     blogpb.Title := "Hi"; blogpb.Content := "World" |}.

(** A world in which the port is taken: [net.Listen] gives an error. *)
Definition listen_refused : startup.World :=
  {| startup.listen := Some (NetworkError "listen tcp :4000: bind: address already in use");
     startup.connect := None;
     startup.ping := None;
     startup.signal := false;
     startup.close := None |}.

(** ** The server type of [server/main.go] behind [interface{}] *)

Module server.

(** The methods of the interface that the type of a Go value has, each
    with the signature of the interface; a method that the type does not
    define is [None]. *)
Record MethodSet : Type :=
  { has_CreateBlog : option (blogpb.CreateBlogReq → Prog (Reply blogpb.CreateBlogRes));
    has_ReadBlog : option (blogpb.ReadBlogReq → Prog (Reply blogpb.ReadBlogRes));
    has_UpdateBlog : option (blogpb.UpdateBlogReq → Prog (Reply blogpb.UpdateBlogRes));
    has_DeleteBlog : option (blogpb.DeleteBlogReq → Prog (Reply blogpb.DeleteBlogRes));
    has_ListBlog : option (blogpb.ListBlogReq → Prog (Reply blogpb.ListBlogReq)) }.

(** The type assertion of the stubs on the server value: it holds when
    the type has the five methods. *)
Definition assert_BlogServiceServer (t : MethodSet) : pb.Server :=
  match has_CreateBlog t, has_ReadBlog t, has_UpdateBlog t, has_DeleteBlog t,
        has_ListBlog t with
  | Some c, Some r, Some u, Some d, Some l =>
      pb.Implementing
        {| pb.srv_CreateBlog := c; pb.srv_ReadBlog := r; pb.srv_UpdateBlog := u;
           pb.srv_DeleteBlog := d; pb.srv_ListBlog := l |}
  | _, _, _, _, _ => pb.NotImplementing
  end.

(** [type BlogServiceServer struct{}] with the four methods that
    [server/main.go] defines on it; the text of [ListBlogs] is a comment. *)
Definition BlogServiceServer : MethodSet :=
  {| has_CreateBlog := Some CreateBlog;
     has_ReadBlog := Some ReadBlog;
     has_UpdateBlog := Some UpdateBlog;
     has_DeleteBlog := Some DeleteBlog;
     has_ListBlog := None |}.

(** The same type with a method [ListBlog] added. *)
Definition plus_ListBlog
    (list : blogpb.ListBlogReq → Prog (Reply blogpb.ListBlogReq)) : MethodSet :=
  {| has_CreateBlog := Some CreateBlog;
     has_ReadBlog := Some ReadBlog;
     has_UpdateBlog := Some UpdateBlog;
     has_DeleteBlog := Some DeleteBlog;
     has_ListBlog := Some list |}.

End server.

(** An interceptor that answers from what it is given, without calling
    the handler. *)
Definition observing (f : pb.Message → pb.UnaryServerInfo → pb.Result)
  : pb.UnaryServerInterceptor :=
  λ req info _, Ret (f req info).

(** The stub [stub] is the entry [name] of the descriptor, and it gives an
    interceptor the request that was decoded, under the full method name
    made of the service name and of [name]. *)
Definition announces {Req : Type} (name : string) (stub : pb.StubHandler)
    (zero : Req) (inj : Req → pb.Message) : Prop :=
  (name, stub) ∈ pb.Methods
  ∧ ∀ (srv : pb.Server) (dec : pb.Decoder) (y : Req)
      (f : pb.Message → pb.UnaryServerInfo → pb.Result),
      dec _ zero = inr y →
      stub srv dec (Some (observing f))
      = Ret (f (inj y)
               {| pb.info_Server := srv;
                  pb.FullMethod := String "/" (pb.ServiceName ++ String "/" name) |}).

(** * Properties *)

(** ** Identifiers and their hexadecimal form *)

Section Hexadecimal.

Lemma fromHexChar_hextable_hi (v : byte) :
  hex.fromHexChar (hex.hextable (N.shiftr (Byte.to_N v) 4))
  = Some (N.shiftr (Byte.to_N v) 4).
Proof. destruct v; reflexivity. Qed.

Lemma fromHexChar_hextable_lo (v : byte) :
  hex.fromHexChar (hex.hextable (N.land (Byte.to_N v) 15))
  = Some (N.land (Byte.to_N v) 15).
Proof. destruct v; reflexivity. Qed.

Lemma pack_nibbles (v : byte) :
  hex.pack (N.shiftr (Byte.to_N v) 4) (N.land (Byte.to_N v) 15) = v.
Proof. destruct v; reflexivity. Qed.

Lemma DecodeString_EncodeToString (l : list byte) :
  hex.DecodeString (hex.EncodeToString l) = inr l.
Proof.
  induction l as [|v l IH]; [reflexivity|].
  cbn [hex.EncodeToString hex.DecodeString].
  rewrite fromHexChar_hextable_hi, fromHexChar_hextable_lo.
  fold hex.DecodeString. rewrite IH, pack_nibbles. reflexivity.
Qed.

Lemma of_slice_vec_to_list (oid : ObjectID) :
  of_slice (vec_to_list oid) = Some oid.
Proof. unfold ObjectID in oid. repeat (inv_vec oid; intros ?). reflexivity. Qed.

Lemma ObjectIDFromHex_Hex (oid : ObjectID) :
  ObjectIDFromHex (Hex oid) = (oid, None).
Proof.
  unfold ObjectIDFromHex, Hex.
  rewrite DecodeString_EncodeToString, of_slice_vec_to_list. reflexivity.
Qed.

Lemma Hex_length (oid : ObjectID) : String.length (Hex oid) = 24.
Proof. unfold ObjectID in oid. repeat (inv_vec oid; intros ?). reflexivity. Qed.

Lemma Hex_nonempty (oid : ObjectID) : Hex oid ≠ EmptyString.
Proof. intros H. pose proof (Hex_length oid) as L. rewrite H in L. discriminate. Qed.

(** When the string does not parse, the identifier given back is the zero
    value. *)
Lemma ObjectIDFromHex_err (s : string) (oid : ObjectID) (err : error) :
  ObjectIDFromHex s = (oid, Some err) → oid = NilObjectID.
Proof.
  unfold ObjectIDFromHex.
  destruct (hex.DecodeString s) as [e|b]; [congruence|].
  destruct (of_slice b); congruence.
Qed.

Lemma DecodeString_length (s : string) :
  (∀ b, hex.DecodeString s = inr b → String.length s = 2 * length b)
  ∧ (∀ c b, hex.DecodeString (String c s) = inr b → String.length (String c s) = 2 * length b).
Proof.
  induction s as [|a s [IH1 IH2]]; split.
  - intros b [= <-]. reflexivity.
  - intros c b. cbn. destruct (hex.fromHexChar c); discriminate.
  - intros b H. apply IH2, H.
  - intros c b. cbn [hex.DecodeString].
    destruct (hex.fromHexChar c); [|discriminate].
    destruct (hex.fromHexChar a); [|discriminate].
    destruct (hex.DecodeString s) as [e|l]; [discriminate|].
    intros [= <-]. cbn [String.length length]. rewrite (IH1 l eq_refl). lia.
Qed.

Lemma of_slice_length (b : list byte) (oid : ObjectID) :
  of_slice b = Some oid → length b = 12.
Proof.
  unfold of_slice. do 13 (destruct b as [|? b]; try discriminate). reflexivity.
Qed.

(** A string that parses has twenty-four characters. *)
Lemma ObjectIDFromHex_length (s : string) (oid : ObjectID) :
  ObjectIDFromHex s = (oid, None) → String.length s = 24.
Proof.
  unfold ObjectIDFromHex.
  destruct (hex.DecodeString s) as [e|b] eqn:D; [discriminate|].
  destruct (of_slice b) as [o|] eqn:S; [|discriminate]. intros _.
  rewrite (proj1 (DecodeString_length s) b D), (of_slice_length b o S). reflexivity.
Qed.

End Hexadecimal.

(** ** Identifiers that do not parse *)

Lemma ReadBlog_unparseable (s : string) (oid : ObjectID) (err : error) :
  ObjectIDFromHex s = (oid, Some err) →
  ReadBlog {| blogpb.ReadBlogReq_Id := s |}
  = Ret (Error (status.Errorf codes.InvalidArgument
                  (Sprintf "Could not convert to ObjectId: %v" [ArgErr err]))).
Proof. intros H. unfold ReadBlog. cbn [blogpb.ReadBlogReq_Id]. rewrite H. reflexivity. Qed.

Lemma DeleteBlog_unparseable (s : string) (oid : ObjectID) (err : error) :
  ObjectIDFromHex s = (oid, Some err) →
  DeleteBlog {| blogpb.DeleteBlogReq_Id := s |}
  = Ret (Error (status.Errorf codes.InvalidArgument
                  (Sprintf "Could not convert to ObjectId: %v" [ArgErr err]))).
Proof. intros H. unfold DeleteBlog. cbn [blogpb.DeleteBlogReq_Id]. rewrite H. reflexivity. Qed.

(** Whatever the identifier and whatever the driver answers, [UpdateBlog]
    calls the collection once and never replies [InvalidArgument]. *)
Lemma UpdateBlog_calls (h : Driver) (blog : option blogpb.Blog) :
  calls h (UpdateBlog {| blogpb.UpdateBlogReq_Blog := blog |})
  = [update_call (ObjectIDFromHex (blogpb.GetId blog)).1 blog].
Proof.
  unfold UpdateBlog, update_call, update_op, update_fields, by_id. cbn [blogpb.UpdateBlogReq_Blog].
  destruct (ObjectIDFromHex (blogpb.GetId blog)) as [oid err]. cbn.
  destruct (Decode _ _); reflexivity.
Qed.

Lemma UpdateBlog_code (h : Driver) (req : blogpb.UpdateBlogReq) :
  code_of (eval h (UpdateBlog req)) = None
  ∨ code_of (eval h (UpdateBlog req)) = Some codes.NotFound.
Proof.
  unfold UpdateBlog.
  destruct (ObjectIDFromHex _) as [oid err]. cbn.
  destruct (Decode _ _); cbn; auto.
Qed.

(** C2, on the code: an identifier that does not parse makes [ReadBlog] and
    [DeleteBlog] reply [InvalidArgument] without any call to the
    collection, but [UpdateBlog] goes on: it calls [FindOneAndUpdate] with
    the zero identifier as filter, and its reply is never
    [InvalidArgument]. *)
Theorem unparseable_id_UpdateBlog_calls_store
    (h : Driver) (s : string) (oid : ObjectID) (err : error) :
  ObjectIDFromHex s = (oid, Some err) →
  (code_of (eval h (ReadBlog {| blogpb.ReadBlogReq_Id := s |})) = Some codes.InvalidArgument
   ∧ calls h (ReadBlog {| blogpb.ReadBlogReq_Id := s |}) = [])
  ∧ (code_of (eval h (DeleteBlog {| blogpb.DeleteBlogReq_Id := s |})) = Some codes.InvalidArgument
     ∧ calls h (DeleteBlog {| blogpb.DeleteBlogReq_Id := s |}) = [])
  ∧ ∀ blog : option blogpb.Blog,
      blogpb.GetId blog = s →
      calls h (UpdateBlog {| blogpb.UpdateBlogReq_Blog := blog |})
      = [update_call NilObjectID blog]
      ∧ code_of (eval h (UpdateBlog {| blogpb.UpdateBlogReq_Blog := blog |}))
        ≠ Some codes.InvalidArgument.
Proof.
  intros H. split; [|split].
  - rewrite (ReadBlog_unparseable _ _ _ H). split; reflexivity.
  - rewrite (DeleteBlog_unparseable _ _ _ H). split; reflexivity.
  - intros blog Hid. split.
    + rewrite UpdateBlog_calls, Hid, H. cbn [fst].
      rewrite (ObjectIDFromHex_err _ _ _ H). reflexivity.
    + destruct (UpdateBlog_code h {| blogpb.UpdateBlogReq_Blog := blog |}) as [E|E];
        rewrite E; discriminate.
Qed.

Lemma unparseable_id_UpdateBlog_calls_store_witness :
  ObjectIDFromHex "xyz" = (NilObjectID, Some (InvalidByteError "x"))
  ∧ calls (scripted VNull None)
      (UpdateBlog {| blogpb.UpdateBlogReq_Blog :=
         Some {| blogpb.Id := "xyz"; blogpb.AuthorId := "u1";
                 blogpb.Title := "Hi"; blogpb.Content := "World" |} |})
    = [update_call NilObjectID
         (Some {| blogpb.Id := "xyz"; blogpb.AuthorId := "u1";
                  blogpb.Title := "Hi"; blogpb.Content := "World" |})]
  ∧ code_of (eval (scripted VNull None)
      (UpdateBlog {| blogpb.UpdateBlogReq_Blog :=
         Some {| blogpb.Id := "xyz"; blogpb.AuthorId := "u1";
                 blogpb.Title := "Hi"; blogpb.Content := "World" |} |}))
    ≠ Some codes.InvalidArgument.
Proof.
  split; [reflexivity|].
  exact (proj2 (proj2 (unparseable_id_UpdateBlog_calls_store
    (scripted VNull None) "xyz" NilObjectID (InvalidByteError "x") eq_refl))
    (Some {| blogpb.Id := "xyz"; blogpb.AuthorId := "u1";
             blogpb.Title := "Hi"; blogpb.Content := "World" |}) eq_refl).
Defined.

(** ** The status code of a driver error *)

Lemma Marshal_create (blog : option blogpb.Blog) :
  Marshal {| ID := NilObjectID;
             AuthorID := blogpb.GetAuthorId blog;
             Title := blogpb.GetTitle blog;
             Content := blogpb.GetContent blog |} = create_doc blog.
Proof. reflexivity. Qed.

Lemma CreateBlog_calls (h : Driver) (req : blogpb.CreateBlogReq) :
  calls h (CreateBlog req)
  = [existT _ (InsertOne (create_doc (blogpb.CreateBlogReq_Blog req)))].
Proof.
  unfold CreateBlog. rewrite Marshal_create. cbn.
  destruct (h _ _) as [err|result]; [reflexivity|].
  destruct (assert_ObjectID _); [|reflexivity].
  destruct (blogpb.CreateBlogReq_Blog req); reflexivity.
Qed.

Lemma CreateBlog_eval (h : Driver) (req : blogpb.CreateBlogReq) :
  eval h (CreateBlog req)
  = match h _ (InsertOne (create_doc (blogpb.CreateBlogReq_Blog req))) with
    | inl err =>
        Error (status.Errorf codes.Internal (Sprintf "Internal error: %v" [ArgErr err]))
    | inr result =>
        match assert_ObjectID (InsertedID result) with
        | None => Panics InterfaceConversion
        | Some oid =>
            match blogpb.CreateBlogReq_Blog req with
            | None => Panics NilPointerDereference
            | Some b =>
                Return {| blogpb.CreateBlogRes_Blog := Some (blogpb.set_Id b (Hex oid)) |}
            end
        end
    end.
Proof.
  unfold CreateBlog. rewrite Marshal_create. cbn.
  destruct (h _ _) as [err|result]; [reflexivity|].
  destruct (assert_ObjectID _); [|reflexivity].
  destruct (blogpb.CreateBlogReq_Blog req); reflexivity.
Qed.

Lemma DeleteBlog_eval (h : Driver) (s : string) (oid : ObjectID) :
  ObjectIDFromHex s = (oid, None) →
  eval h (DeleteBlog {| blogpb.DeleteBlogReq_Id := s |})
  = match h _ (DeleteOne {[ "_id" := VObjectID oid ]}) with
    | inl err =>
        Error (status.Errorf codes.NotFound
                 (Sprintf "Couldn't find/delete blog with id %s : %v" [ArgStr s; ArgErr err]))
    | inr _ => Return {| blogpb.Success := true |}
    end.
Proof.
  intros H. unfold DeleteBlog. cbn [blogpb.DeleteBlogReq_Id]. rewrite H. cbn.
  destruct (h _ _); reflexivity.
Qed.

Lemma ReadBlog_eval (h : Driver) (s : string) (oid : ObjectID) :
  ObjectIDFromHex s = (oid, None) →
  eval h (ReadBlog {| blogpb.ReadBlogReq_Id := s |})
  = match Decode (h _ (FindOne {[ "_id" := VObjectID oid ]})) BlogItem_zero with
    | inl err =>
        Error (status.Errorf codes.NotFound
                 (Sprintf "Could not find blog with Object Id %s:%v" [ArgStr s; ArgErr err]))
    | inr data =>
        Return {| blogpb.ReadBlogRes_Blog :=
          Some {| blogpb.Id := Hex oid;
                  blogpb.AuthorId := AuthorID data;
                  blogpb.Title := Title data;
                  blogpb.Content := Content data |} |}
    end.
Proof.
  intros H. unfold ReadBlog. cbn [blogpb.ReadBlogReq_Id]. rewrite H. cbn.
  destruct (Decode _ _); reflexivity.
Qed.

Lemma UpdateBlog_eval (h : Driver) (blog : option blogpb.Blog) :
  eval h (UpdateBlog {| blogpb.UpdateBlogReq_Blog := blog |})
  = match Decode (h _ (update_op (ObjectIDFromHex (blogpb.GetId blog)).1 blog))
            BlogItem_zero with
    | inl err =>
        Error (status.Errorf codes.NotFound
                 (Sprintf "Could not find blog with Supplied ID %s: %v"
                    [ArgStr (blogpb.GetId blog); ArgErr err]))
    | inr data =>
        Return {| blogpb.UpdateBlogRes_Blog :=
          Some {| blogpb.Id := Hex (ID data);
                  blogpb.AuthorId := AuthorID data;
                  blogpb.Title := Title data;
                  blogpb.Content := Content data |} |}
    end.
Proof.
  unfold UpdateBlog, update_call, update_op, update_fields, by_id. cbn [blogpb.UpdateBlogReq_Blog].
  destruct (ObjectIDFromHex (blogpb.GetId blog)) as [oid err]. cbn.
  destruct (Decode _ _); reflexivity.
Qed.

(** C5, on the code: a driver-level error of the store call is surfaced as
    [Internal] by [CreateBlog] only.  [DeleteBlog] surfaces the error of
    [DeleteOne] as [NotFound], and so do [ReadBlog] and [UpdateBlog] with
    the error held by their result, where the mapping of the specification
    gives [Internal] to a store failure. *)
Theorem driver_error_surfaced_as_NotFound
    (h : Driver) (s : string) (oid : ObjectID) (err : error) :
  ObjectIDFromHex s = (oid, None) →
  spec_failure_kind err = StoreFailure →
  (h _ (DeleteOne {[ "_id" := VObjectID oid ]}) = inl err →
   code_of (eval h (DeleteBlog {| blogpb.DeleteBlogReq_Id := s |})) = Some codes.NotFound)
  ∧ (h _ (FindOne {[ "_id" := VObjectID oid ]}) = SingleResult_err err →
     code_of (eval h (ReadBlog {| blogpb.ReadBlogReq_Id := s |})) = Some codes.NotFound)
  ∧ (∀ blog, blogpb.GetId blog = s →
     h _ (update_op oid blog) = SingleResult_err err →
     code_of (eval h (UpdateBlog {| blogpb.UpdateBlogReq_Blog := blog |}))
     = Some codes.NotFound)
  ∧ (∀ req, h _ (InsertOne (create_doc (blogpb.CreateBlogReq_Blog req))) = inl err →
     code_of (eval h (CreateBlog req)) = Some codes.Internal)
  ∧ codes.NotFound ≠ spec_status_code (spec_failure_kind err).
Proof.
  intros H K. repeat split.
  - intros E. rewrite (DeleteBlog_eval _ _ _ H), E. reflexivity.
  - intros E. rewrite (ReadBlog_eval _ _ _ H), E. reflexivity.
  - intros blog Hid E. rewrite UpdateBlog_eval, Hid, H. cbn [fst]. rewrite E. reflexivity.
  - intros req E. rewrite CreateBlog_eval, E. reflexivity.
  - rewrite K. discriminate.
Qed.

Lemma driver_error_surfaced_as_NotFound_witness :
  code_of (eval (scripted VNull (Some (NetworkError "connection reset")))
             (DeleteBlog {| blogpb.DeleteBlogReq_Id := "000000000000000000000000" |}))
  = Some codes.NotFound.
Proof.
  exact (proj1 (driver_error_surfaced_as_NotFound
    (scripted VNull (Some (NetworkError "connection reset")))
    "000000000000000000000000" NilObjectID (NetworkError "connection reset")
    eq_refl eq_refl) eq_refl).
Defined.

(** ** The identifier assigned at creation *)

(** C8 as it is stated does not hold of every request: for a request
    that carries no blog, an insert result whose [InsertedID] is an
    [ObjectID] does not make [CreateBlog] return its hexadecimal form; the
    handler panics on the nil blog after the insertion. *)
Lemma CreateBlog_without_blog_ObjectID_key_panics :
  scripted (VObjectID oid1) None _ (InsertOne (create_doc None))
  = inr {| InsertedID := VObjectID oid1 |}
  ∧ eval (scripted (VObjectID oid1) None)
      (CreateBlog {| blogpb.CreateBlogReq_Blog := None |})
    = Panics NilPointerDereference
  ∧ ¬ (∀ (h : Driver) (req : blogpb.CreateBlogReq) (oid : ObjectID),
         (∀ doc, h _ (InsertOne doc) = inr {| InsertedID := VObjectID oid |}) →
         ∃ res, eval h (CreateBlog req) = Return res).
Proof.
  split; [reflexivity|]. split; [reflexivity|].
  intros H.
  destruct (H (scripted (VObjectID oid1) None)
              {| blogpb.CreateBlogReq_Blog := None |} oid1 (λ _, eq_refl)) as [res R].
  discriminate R.
Qed.

(** C8, amended: the inserted key is converted by an unchecked type
    assertion.  For every request that carries a blog, an insert result
    whose [InsertedID] is an [ObjectID] makes [CreateBlog] return the
    author, title and content of the blog with the hexadecimal form of
    that identifier; and for every request, an insert result with a key of
    any other type makes it panic on the conversion: no status error is
    returned. *)
Theorem CreateBlog_InsertedID_assertion
    (h : Driver) (req : blogpb.CreateBlogReq) (v : bson.Value) :
  (∀ doc, h _ (InsertOne doc) = inr {| InsertedID := v |}) →
  (∀ b oid, blogpb.CreateBlogReq_Blog req = Some b → v = VObjectID oid →
     eval h (CreateBlog req)
     = Return {| blogpb.CreateBlogRes_Blog :=
         Some {| blogpb.Id := Hex oid;
                 blogpb.AuthorId := blogpb.AuthorId b;
                 blogpb.Title := blogpb.Title b;
                 blogpb.Content := blogpb.Content b |} |})
  ∧ ((∀ oid, v ≠ VObjectID oid) →
     eval h (CreateBlog req) = Panics InterfaceConversion).
Proof.
  intros E. rewrite CreateBlog_eval, E. cbn [InsertedID]. split.
  - intros b oid -> ->. reflexivity.
  - intros N. destruct v; try reflexivity. exfalso. apply (N oid). reflexivity.
Qed.

Lemma CreateBlog_InsertedID_assertion_witness :
  eval (scripted (VString "k1") None)
    (CreateBlog {| blogpb.CreateBlogReq_Blog := Some hello |})
  = Panics InterfaceConversion
  ∧ eval (scripted (VObjectID oid1) None)
      (CreateBlog {| blogpb.CreateBlogReq_Blog := Some hello |})
    = Return {| blogpb.CreateBlogRes_Blog :=
        Some {| blogpb.Id := "5f00ab01020304050607feff"; blogpb.AuthorId := "u1";
                blogpb.Title := "Hello"; blogpb.Content := "World" |} |}.
Proof.
  split.
  - apply (proj2 (CreateBlog_InsertedID_assertion (scripted (VString "k1") None)
             {| blogpb.CreateBlogReq_Blog := Some hello |} (VString "k1")
             (λ _, eq_refl))).
    intros oid. discriminate.
  - exact (proj1 (CreateBlog_InsertedID_assertion (scripted (VObjectID oid1) None)
             {| blogpb.CreateBlogReq_Blog := Some hello |} (VObjectID oid1)
             (λ _, eq_refl)) hello oid1 eq_refl eq_refl).
Defined.

Lemma create_doc_lookup (blog : option blogpb.Blog) (k : string) :
  create_doc blog !! k
  = if decide (k = "author_id") then Some (VString (blogpb.GetAuthorId blog))
    else if decide (k = "content") then Some (VString (blogpb.GetContent blog))
    else if decide (k = "title") then Some (VString (blogpb.GetTitle blog))
    else None.
Proof.
  unfold create_doc.
  repeat case_decide; subst; simplify_map_eq; reflexivity.
Qed.

Lemma create_doc_no_id (blog : option blogpb.Blog) : create_doc blog !! "_id" = None.
Proof. rewrite create_doc_lookup. reflexivity. Qed.

Lemma insert_one_fresh (e : Env) (document : bson.M) (ds : list bson.M)
    (result : InsertOneResult) (ds' : list bson.M) :
  document !! "_id" = None →
  insert_one e document ds = (inr result, ds') →
  result = {| InsertedID := VObjectID (fresh e) |}
  ∧ ds' = (ds ++ [<["_id" := VObjectID (fresh e)]> document])%list
  ∧ ¬ present (fresh e) ds.
Proof.
  intros Hid. unfold insert_one. rewrite Hid.
  case_decide as Hex; [discriminate|].
  intros [= <- <-]. auto.
Qed.

(** C10: whatever the request, and whatever identifier its blog carries,
    [CreateBlog] makes exactly one call, the insertion of a document whose
    keys are the author, the content and the title, without [_id]; the
    handler is the same program for any identifier in the request; a
    response carries the hexadecimal form of the key that the insert call
    returned; and in the collection the document is stored under the
    identifier that the driver generated. *)
Theorem CreateBlog_ignores_request_id (h : Driver) (req : blogpb.CreateBlogReq) :
  let blog := blogpb.CreateBlogReq_Blog req in
  let doc := create_doc blog in
  calls h (CreateBlog req) = [existT _ (InsertOne doc)]
  ∧ dom doc = ({[ "author_id"; "content"; "title" ]} : gset string)
  ∧ doc !! "_id" = None
  ∧ doc !! "author_id" = Some (VString (blogpb.GetAuthorId blog))
  ∧ doc !! "title" = Some (VString (blogpb.GetTitle blog))
  ∧ doc !! "content" = Some (VString (blogpb.GetContent blog))
  ∧ (∀ (b : blogpb.Blog) (id : string),
       CreateBlog {| blogpb.CreateBlogReq_Blog := Some (blogpb.set_Id b id) |}
       = CreateBlog {| blogpb.CreateBlogReq_Blog := Some b |})
  ∧ (∀ res, eval h (CreateBlog req) = Return res →
       ∃ oid,
         h _ (InsertOne doc) = inr {| InsertedID := VObjectID oid |}
         ∧ blogpb.GetId (blogpb.CreateBlogRes_Blog res) = Hex oid)
  ∧ (∀ w res w', run (CreateBlog req) w = (Return res, w') →
       docs w' = (docs w ++ [<["_id" := VObjectID (fresh (now w))]> doc])%list
       ∧ blogpb.GetId (blogpb.CreateBlogRes_Blog res) = Hex (fresh (now w))).
Proof.
  intros blog doc. split; [apply CreateBlog_calls|].
  split; [unfold doc, create_doc; rewrite !dom_insert_L, dom_singleton_L; set_solver|].
  repeat (split; [unfold doc; rewrite create_doc_lookup; reflexivity|]).
  split; [reflexivity|]. split.
  - intros res. rewrite CreateBlog_eval. fold blog doc.
    destruct (h _ (InsertOne doc)) as [err|[v]]; [discriminate|].
    destruct v; try discriminate. cbn.
    destruct blog; [|discriminate]. intros [= <-]. eauto.
  - intros w res w'. unfold CreateBlog. rewrite Marshal_create. fold blog doc. cbn.
    destruct (fault (now w)) as [err|]; [cbn; discriminate|].
    destruct (insert_one (now w) doc (docs w)) as [[err|result] ds'] eqn:E;
      [cbn; discriminate|].
    apply insert_one_fresh in E as (-> & -> & _);
      [|unfold doc; rewrite create_doc_lookup; reflexivity].
    cbn. destruct blog; [|discriminate]. intros [= <- <-]. auto.
Qed.

Lemma CreateBlog_ignores_request_id_witness :
  docs (run (CreateBlog {| blogpb.CreateBlogReq_Blog := Some hello |}) empty_world).2
  = [ <["_id" := VObjectID oid1]> (create_doc (Some hello)) ]
  ∧ blogpb.GetId (Some (blogpb.set_Id hello (Hex oid1))) = Hex oid1.
Proof.
  exact (proj2 (proj2 (proj2 (proj2 (proj2 (proj2 (proj2 (proj2
    (CreateBlog_ignores_request_id (scripted VNull None)
       {| blogpb.CreateBlogReq_Blog := Some hello |}))))))))
    empty_world
    {| blogpb.CreateBlogRes_Blog := Some (blogpb.set_Id hello (Hex oid1)) |}
    (run (CreateBlog {| blogpb.CreateBlogReq_Blog := Some hello |}) empty_world).2
    eq_refl).
Defined.

(** ** Running the handlers on the collection *)

Lemma Matches_by_id (oid : ObjectID) (d : bson.M) :
  Matches (by_id oid) d ↔ d !! "_id" = Some (VObjectID oid).
Proof.
  unfold Matches, by_id.
  exact (map_Forall_singleton (λ k v, d !! k = Some v) "_id" (VObjectID oid)).
Qed.

Lemma find_absent (oid : ObjectID) (ds : list bson.M) :
  ¬ present oid ds → list_find (Matches (by_id oid)) ds = None.
Proof.
  intros H. apply list_find_None.
  apply (not_Exists_Forall _) in H.
  eapply Forall_impl; [exact H|]. cbn. intros d Hd Hm. apply Hd, Matches_by_id, Hm.
Qed.

Lemma find_present (oid : ObjectID) (ds : list bson.M) (i : nat) (d : bson.M) :
  list_find (Matches (by_id oid)) ds = Some (i, d) →
  ds !! i = Some d ∧ d !! "_id" = Some (VObjectID oid).
Proof.
  intros H. apply list_find_Some in H as (Hi & Hm & _).
  split; [exact Hi|]. apply Matches_by_id, Hm.
Qed.

Lemma run_ReadBlog (w : World) (s : string) (oid : ObjectID) :
  ObjectIDFromHex s = (oid, None) →
  (run (ReadBlog {| blogpb.ReadBlogReq_Id := s |}) w).1
  = eval (λ X op, (perform op (now w) (docs w)).1) (ReadBlog {| blogpb.ReadBlogReq_Id := s |}).
Proof.
  intros H. unfold ReadBlog. cbn [blogpb.ReadBlogReq_Id]. rewrite H.
  cbn [mbind mret Prog_bind Prog_ret bind call run eval].
  destruct (perform _ _ _) as [x ds]. cbn [fst].
  destruct (Decode x _); reflexivity.
Qed.

Lemma run_DeleteBlog (w : World) (s : string) (oid : ObjectID) :
  ObjectIDFromHex s = (oid, None) →
  (run (DeleteBlog {| blogpb.DeleteBlogReq_Id := s |}) w).1
  = eval (λ X op, (perform op (now w) (docs w)).1) (DeleteBlog {| blogpb.DeleteBlogReq_Id := s |})
  ∧ docs (run (DeleteBlog {| blogpb.DeleteBlogReq_Id := s |}) w).2
    = (perform (DeleteOne (by_id oid)) (now w) (docs w)).2.
Proof.
  intros H. unfold DeleteBlog. cbn [blogpb.DeleteBlogReq_Id]. rewrite H.
  cbn [mbind mret Prog_bind Prog_ret bind call run eval]. fold (by_id oid).
  destruct (perform _ _ _) as [x ds]. cbn [fst snd].
  destruct x; split; reflexivity.
Qed.

Lemma run_UpdateBlog (w : World) (blog : option blogpb.Blog) :
  (run (UpdateBlog {| blogpb.UpdateBlogReq_Blog := blog |}) w).1
  = eval (λ X op, (perform op (now w) (docs w)).1)
      (UpdateBlog {| blogpb.UpdateBlogReq_Blog := blog |})
  ∧ docs (run (UpdateBlog {| blogpb.UpdateBlogReq_Blog := blog |}) w).2
    = (perform (update_op (ObjectIDFromHex (blogpb.GetId blog)).1 blog)
         (now w) (docs w)).2.
Proof.
  unfold UpdateBlog, update_call, update_op, update_fields, by_id. cbn [blogpb.UpdateBlogReq_Blog projT2].
  destruct (ObjectIDFromHex (blogpb.GetId blog)) as [oid err].
  cbn [mbind mret Prog_bind Prog_ret bind call run eval fst].
  destruct (perform _ _ _) as [x ds]. cbn [fst snd].
  destruct (Decode x _); split; reflexivity.
Qed.

(** ** Identifiers that match no document *)

Lemma perform_FindOne_absent (e : Env) (oid : ObjectID) (ds : list bson.M) :
  ¬ present oid ds →
  ∃ err, (perform (FindOne (by_id oid)) e ds).1 = SingleResult_err err.
Proof.
  intros H. cbn [perform]. destruct (fault e) as [err|]; [eauto|].
  unfold find_one. rewrite (find_absent _ _ H). eauto.
Qed.

Lemma perform_FindOneAndUpdate_absent (e : Env) (oid : ObjectID)
    (update : gmap string bson.M) (opts : FindOneAndUpdateOptions) (ds : list bson.M) :
  ¬ present oid ds →
  ∃ err, (perform (FindOneAndUpdate (by_id oid) update opts) e ds).1 = SingleResult_err err.
Proof.
  intros H. cbn [perform]. destruct (fault e) as [err|]; [eauto|].
  unfold find_one_and_update. rewrite (find_absent _ _ H). eauto.
Qed.

Lemma perform_DeleteOne_absent (e : Env) (oid : ObjectID) (ds : list bson.M) :
  fault e = None → ¬ present oid ds →
  perform (DeleteOne (by_id oid)) e ds = (inr {| DeletedCount := 0 |}, ds).
Proof.
  intros F H. cbn [perform]. rewrite F.
  unfold delete_one. rewrite (find_absent _ _ H). reflexivity.
Qed.

(** C1, on the code: for an identifier that parses and is the [_id] of no
    document, [ReadBlog] and [UpdateBlog] reply [NotFound], but
    [DeleteBlog], when its call does not fail, replies with [Success] set:
    [DeleteOne] reports no error when it deletes nothing, and the count of
    deleted documents is not looked at.  The collection is left as it
    was. *)
Theorem absent_id_DeleteBlog_reports_success (w : World) (oid : ObjectID) :
  ¬ present oid (docs w) →
  code_of (run (ReadBlog {| blogpb.ReadBlogReq_Id := Hex oid |}) w).1
  = Some codes.NotFound
  ∧ (∀ blog : option blogpb.Blog,
       blogpb.GetId blog = Hex oid →
       code_of (run (UpdateBlog {| blogpb.UpdateBlogReq_Blog := blog |}) w).1
       = Some codes.NotFound)
  ∧ (fault (now w) = None →
       (run (DeleteBlog {| blogpb.DeleteBlogReq_Id := Hex oid |}) w).1
       = Return {| blogpb.Success := true |}
       ∧ docs (run (DeleteBlog {| blogpb.DeleteBlogReq_Id := Hex oid |}) w).2 = docs w).
Proof.
  intros H. split; [|split].
  - rewrite (run_ReadBlog w _ oid (ObjectIDFromHex_Hex oid)).
    rewrite (ReadBlog_eval _ _ oid (ObjectIDFromHex_Hex oid)).
    destruct (perform_FindOne_absent (now w) oid (docs w) H) as [err E].
    unfold by_id in E. rewrite E. reflexivity.
  - intros blog Hid.
    rewrite (proj1 (run_UpdateBlog w blog)), UpdateBlog_eval.
    rewrite Hid, ObjectIDFromHex_Hex. cbn [fst]. unfold update_op.
    destruct (perform_FindOneAndUpdate_absent (now w) oid
                {[ "$set" := update_fields blog ]}
                (SetReturnDocument 1 FindOneAndUpdate_) (docs w) H) as [err E].
    rewrite E. reflexivity.
  - intros F.
    destruct (run_DeleteBlog w _ oid (ObjectIDFromHex_Hex oid)) as [E1 E2].
    rewrite E1, E2, (DeleteBlog_eval _ _ oid (ObjectIDFromHex_Hex oid)).
    fold (by_id oid). rewrite (perform_DeleteOne_absent _ _ _ F H). split; reflexivity.
Qed.

Lemma absent_id_DeleteBlog_reports_success_witness :
  (run (DeleteBlog {| blogpb.DeleteBlogReq_Id := "000000000000000000000000" |})
     empty_world).1
  = Return {| blogpb.Success := true |}.
Proof.
  assert (H : ¬ present NilObjectID (docs empty_world)).
  { intros H. apply Exists_nil in H. exact H. }
  exact (proj1 (proj2 (proj2
    (absent_id_DeleteBlog_reports_success empty_world NilObjectID H)) eq_refl)).
Defined.

(** ** Create, then read *)

Lemma run_CreateBlog_ok (w : World) (b : blogpb.Blog) :
  fault (now w) = None →
  ¬ present (fresh (now w)) (docs w) →
  run (CreateBlog {| blogpb.CreateBlogReq_Blog := Some b |}) w
  = (Return {| blogpb.CreateBlogRes_Blog :=
               Some (blogpb.set_Id b (Hex (fresh (now w)))) |},
     {| docs := (docs w ++ [<["_id" := VObjectID (fresh (now w))]> (create_doc (Some b))])%list;
        log := (log w ++ [existT _ (InsertOne (create_doc (Some b)))])%list;
        env := env w |}).
Proof.
  intros F H. unfold CreateBlog. rewrite Marshal_create.
  cbn [blogpb.CreateBlogReq_Blog mbind mret Prog_bind Prog_ret bind call run perform].
  rewrite F. unfold insert_one. rewrite create_doc_no_id.
  case_decide as Hex; [contradiction|]. reflexivity.
Qed.

Lemma Unmarshal_stored (oid : ObjectID) (blog : option blogpb.Blog) :
  Unmarshal (<["_id" := VObjectID oid]> (create_doc blog)) BlogItem_zero
  = inr {| ID := oid;
           AuthorID := blogpb.GetAuthorId blog;
           Content := blogpb.GetContent blog;
           Title := blogpb.GetTitle blog |}.
Proof.
  unfold Unmarshal, decode_oid, decode_string.
  rewrite lookup_insert_eq, !lookup_insert_ne by discriminate.
  rewrite !create_doc_lookup. reflexivity.
Qed.

Lemma find_one_appended (oid : ObjectID) (ds : list bson.M) (d : bson.M) :
  ¬ present oid ds →
  find_one (by_id oid) (ds ++ [<["_id" := VObjectID oid]> d])
  = SingleResult_doc (<["_id" := VObjectID oid]> d).
Proof.
  intros H. unfold find_one.
  assert (E : list_find (Matches (by_id oid)) (ds ++ [<["_id" := VObjectID oid]> d])
              = Some (length ds + 0, <["_id" := VObjectID oid]> d)).
  { apply list_find_app_Some. right. split; [lia|]. split; [apply find_absent, H|].
    replace (length ds + 0 - length ds) with 0 by lia.
    cbn. case_decide as M; [reflexivity|].
    exfalso. apply M, Matches_by_id, lookup_insert_eq. }
  rewrite E. reflexivity.
Qed.

(** C3: in a world where neither call fails and the driver generates an
    identifier that is not yet in the collection, [CreateBlog] of any blog,
    whatever identifier the blog carries, returns a blog with the author,
    title and content that were sent and with a new identifier, which is
    not empty; and [ReadBlog] of the identifier found in that reply returns
    the author, title and content that were created, under that same
    identifier. *)
Theorem CreateBlog_then_ReadBlog (w : World) (b : blogpb.Blog) :
  fault (now w) = None →
  ¬ present (fresh (now w)) (docs w) →
  fault (env w (S (length (log w)))) = None →
  let created := run (CreateBlog {| blogpb.CreateBlogReq_Blog := Some b |}) w in
  ∃ rb : blogpb.Blog,
    created.1 = Return {| blogpb.CreateBlogRes_Blog := Some rb |}
    ∧ blogpb.Id rb = Hex (fresh (now w))
    ∧ blogpb.Id rb ≠ EmptyString
    ∧ blogpb.AuthorId rb = blogpb.AuthorId b
    ∧ blogpb.Title rb = blogpb.Title b
    ∧ blogpb.Content rb = blogpb.Content b
    ∧ (run (ReadBlog {| blogpb.ReadBlogReq_Id := blogpb.Id rb |}) created.2).1
      = Return {| blogpb.ReadBlogRes_Blog :=
          Some {| blogpb.Id := blogpb.Id rb;
                  blogpb.AuthorId := blogpb.AuthorId b;
                  blogpb.Title := blogpb.Title b;
                  blogpb.Content := blogpb.Content b |} |}.
Proof.
  intros F H F' created. unfold created. rewrite (run_CreateBlog_ok w b F H).
  cbn [fst snd]. exists (blogpb.set_Id b (Hex (fresh (now w)))).
  split; [reflexivity|]. split; [reflexivity|].
  split; [apply Hex_nonempty|]. repeat (split; [reflexivity|]).
  cbn [blogpb.set_Id blogpb.Id].
  rewrite (run_ReadBlog _ _ _ (ObjectIDFromHex_Hex _)).
  rewrite (ReadBlog_eval _ _ _ (ObjectIDFromHex_Hex _)).
  cbn [perform]. unfold now at 1. cbn [log env docs].
  rewrite length_app, Nat.add_1_r, F'. cbn [fst].
  fold (by_id (fresh (now w))). rewrite (find_one_appended _ _ _ H).
  cbn [Decode]. rewrite Unmarshal_stored. reflexivity.
Qed.

Lemma CreateBlog_then_ReadBlog_witness :
  ∃ rb : blogpb.Blog,
    (run (CreateBlog {| blogpb.CreateBlogReq_Blog := Some hello |}) empty_world).1
    = Return {| blogpb.CreateBlogRes_Blog := Some rb |}
    ∧ blogpb.Id rb = "5f00ab01020304050607feff"
    ∧ (run (ReadBlog {| blogpb.ReadBlogReq_Id := blogpb.Id rb |})
         (run (CreateBlog {| blogpb.CreateBlogReq_Blog := Some hello |})
            empty_world).2).1
      = Return {| blogpb.ReadBlogRes_Blog :=
          Some {| blogpb.Id := blogpb.Id rb; blogpb.AuthorId := "u1";
                  blogpb.Title := "Hello"; blogpb.Content := "World" |} |}.
Proof.
  assert (H : ¬ present (fresh (now empty_world)) (docs empty_world)).
  { intros H. apply Exists_nil in H. exact H. }
  destruct (CreateBlog_then_ReadBlog empty_world hello eq_refl H eq_refl)
    as (rb & E & Hid & _ & _ & _ & _ & R).
  exists rb. split; [exact E|]. split; [exact Hid | exact R].
Defined.

(** ** What an update changes *)

Lemma update_fields_lookup (blog : option blogpb.Blog) (k : string) :
  update_fields blog !! k
  = if decide (k = "author_id") then Some (VString (blogpb.GetAuthorId blog))
    else if decide (k = "title") then Some (VString (blogpb.GetTitle blog))
    else if decide (k = "content") then Some (VString (blogpb.GetContent blog))
    else None.
Proof.
  unfold update_fields.
  repeat case_decide; subst; simplify_map_eq; reflexivity.
Qed.

Lemma apply_update_set (blog : option blogpb.Blog) (d : bson.M) :
  apply_update {[ "$set" := update_fields blog ]} d = inr (update_fields blog ∪ d).
Proof.
  unfold apply_update. rewrite lookup_singleton_eq.
  case_decide as D; [|exfalso; apply D; rewrite dom_singleton_L; reflexivity].
  rewrite update_fields_lookup. reflexivity.
Qed.

Lemma set_lookup (blog : option blogpb.Blog) (d : bson.M) (k : string) :
  (update_fields blog ∪ d) !! k
  = if decide (k = "author_id") then Some (VString (blogpb.GetAuthorId blog))
    else if decide (k = "title") then Some (VString (blogpb.GetTitle blog))
    else if decide (k = "content") then Some (VString (blogpb.GetContent blog))
    else d !! k.
Proof.
  rewrite lookup_union, update_fields_lookup.
  repeat case_decide; try reflexivity; destruct (d !! k); reflexivity.
Qed.

Lemma perform_update_found (e : Env) (oid : ObjectID) (blog : option blogpb.Blog)
    (ds : list bson.M) (i : nat) (d : bson.M) :
  fault e = None →
  list_find (Matches (by_id oid)) ds = Some (i, d) →
  perform (update_op oid blog) e ds
  = (SingleResult_doc (update_fields blog ∪ d), <[i := update_fields blog ∪ d]> ds).
Proof.
  intros F H. unfold update_op. cbn [perform]. rewrite F.
  unfold find_one_and_update. rewrite H, apply_update_set.
  case_decide as R; [reflexivity|]. exfalso. apply R. reflexivity.
Qed.

Lemma perform_update_failed (e : Env) (oid : ObjectID) (blog : option blogpb.Blog)
    (ds : list bson.M) :
  fault e ≠ None ∨ list_find (Matches (by_id oid)) ds = None →
  ∃ err, (perform (update_op oid blog) e ds).1 = SingleResult_err err.
Proof.
  intros H. unfold update_op. cbn [perform].
  destruct (fault e) as [err|]; [eauto|].
  destruct H as [H|H]; [contradiction|].
  unfold find_one_and_update. rewrite H. eauto.
Qed.

Lemma apply_update_id (update : gmap string bson.M) (d d' : bson.M) :
  apply_update update d = inr d' → d' !! "_id" = d !! "_id".
Proof.
  unfold apply_update.
  destruct (update !! "$set") as [fields|]; [|discriminate].
  case_decide; [|discriminate].
  destruct (fields !! "_id") as [v|] eqn:E.
  - case_decide as K; [|discriminate]. intros [= <-].
    rewrite K. apply lookup_union_Some_l, E.
  - intros [= <-]. apply lookup_union_r, E.
Qed.

Lemma find_one_and_update_ids (filter : bson.M) (update : gmap string bson.M)
    (opts : FindOneAndUpdateOptions) (ds : list bson.M) :
  ids (find_one_and_update filter update opts ds).2 = ids ds.
Proof.
  unfold find_one_and_update.
  destruct (list_find _ ds) as [[i d]|] eqn:L; [|reflexivity].
  destruct (apply_update update d) as [err|d'] eqn:A; [reflexivity|]. cbn [snd].
  unfold ids. rewrite list_fmap_insert, (apply_update_id _ _ _ A).
  apply list_find_Some in L as (Hi & _).
  apply list_insert_id. rewrite list_lookup_fmap, Hi. reflexivity.
Qed.

Lemma perform_update_ids (e : Env) (filter : bson.M) (update : gmap string bson.M)
    (opts : FindOneAndUpdateOptions) (ds : list bson.M) :
  ids (perform (FindOneAndUpdate filter update opts) e ds).2 = ids ds.
Proof.
  cbn [perform]. destruct (fault e); [destruct (applied e)|];
    cbn [snd]; try reflexivity; apply find_one_and_update_ids.
Qed.

Lemma Unmarshal_updated (oid : ObjectID) (blog : option blogpb.Blog) (d : bson.M) :
  d !! "_id" = Some (VObjectID oid) →
  Unmarshal (update_fields blog ∪ d) BlogItem_zero
  = inr {| ID := oid;
           AuthorID := blogpb.GetAuthorId blog;
           Content := blogpb.GetContent blog;
           Title := blogpb.GetTitle blog |}.
Proof.
  intros H. unfold Unmarshal, decode_oid, decode_string.
  rewrite !set_lookup. cbn. rewrite H. reflexivity.
Qed.

(** ** Start-up *)

Section Startup.

Import startup.

(** An event that differs from each event of an explicit trace. *)
Ltac not_in_trace :=
  let H := fresh "H" in
  intros H;
  repeat (apply elem_of_cons in H as [H|H]; [discriminate H|]);
  apply elem_of_nil in H; exact H.

Lemma gated_app (p : bool) (t1 t2 : list Event) :
  gated p (t1 ++ GoServe :: t2) = true →
  p = true ∨ ∃ c, Ping c true ∈ t1.
Proof.
  revert p. induction t1 as [|x t1 IH]; intros p H.
  - cbn in H. apply andb_prop in H as [H _]. left. exact H.
  - assert (K : ∀ q, gated q (t1 ++ GoServe :: t2) = true →
                     (q = true → p = true ∨ ∃ c, Ping c true ∈ x :: t1) →
                     p = true ∨ ∃ c, Ping c true ∈ x :: t1).
    { intros q Hq Hp. destruct (IH q Hq) as [->|[c Hc]]; [auto|].
      right. exists c. right. exact Hc. }
    destruct x as [s|a| | |u|c [|]| | | | |c]; cbn in H;
      try (apply (K p H); auto; fail).
    + right. exists c. left.
    + apply andb_prop in H as [Hp _]. left. exact Hp.
Qed.

Lemma main_gated (e : World) (g : Globals) : gated false (main e g).1.2 = true.
Proof.
  unfold main.
  destruct (listen e), (connect e), (db g), (ping e), (signal e), (close e);
    reflexivity.
Qed.

(** C6: if the connection or the ping fails, the run of [main] ends at
    once, by [log.Fatalf] or by a panic, and the goroutine that serves is
    never started; and in every run, whatever the variable [db] holds, the
    server is started only after a ping that was answered. *)
Theorem serving_only_after_ping (e : World) (g : Globals) :
  (connect e ≠ None ∨ ping e ≠ None →
   terminated (main e g).1.1 ∧ GoServe ∉ (main e g).1.2)
  ∧ (∀ t1 t2, (main e g).1.2 = (t1 ++ GoServe :: t2)%list → ∃ c, Ping c true ∈ t1).
Proof.
  split.
  - intros H. unfold main.
    destruct (listen e); [cbn; split; [exact I | not_in_trace]|].
    destruct (connect e); [cbn; split; [exact I | not_in_trace]|].
    destruct (db g); [|cbn; split; [exact I | not_in_trace]].
    destruct (ping e); [cbn; split; [exact I | not_in_trace]|].
    destruct H as [H|H]; contradiction.
  - intros t1 t2 H. pose proof (main_gated e g) as G. rewrite H in G.
    destruct (gated_app _ _ _ G) as [?|?]; [discriminate | assumption].
Qed.

Lemma serving_only_after_ping_witness :
  terminated (main connect_refused initial).1.1
  ∧ GoServe ∉ (main connect_refused initial).1.2.
Proof.
  apply (proj1 (serving_only_after_ping connect_refused initial)).
  left. discriminate.
Defined.

(** C7 as it is stated does not hold of every run: when the port is taken
    and [net.Listen] gives an error, [main] leaves by [log.Fatalf] at once,
    before the connection and the ping. *)
Lemma listen_error_exits_before_ping :
  main listen_refused initial
  = (Fatalf (Sprintf "Failed to listen to the server port: 4000 , %v"
               [ArgErr (NetworkError "listen tcp :4000: bind: address already in use")]),
     [Println "Starting server on port : 4000..."; Listen ":4000"],
     initial)
  ∧ ¬ (∀ e : World, (main e initial).1.1 = Crash NilPointerDereference).
Proof.
  split; [reflexivity|].
  intros H. specialize (H listen_refused). discriminate H.
Qed.

(** C7, amended: [main] never assigns [db], which keeps the value it had;
    starting from the nil [db] of the program, every run in which the
    listener opens and [mongo.Connect] gives no error panics on a nil
    dereference at the ping, before any ping is sent and before the
    server is started, whatever the reachability of the database; and a
    run in which [net.Listen] or [mongo.Connect] gives an error leaves by
    [log.Fatalf] before the ping step. *)
Theorem db_stays_nil_and_ping_panics (e : World) :
  (∀ g, db (main e g).2 = db g)
  ∧ (listen e = None → connect e = None →
     main e initial
     = (Crash NilPointerDereference,
        [Println "Starting server on port : 4000..."; Listen ":4000";
         NewServer; RegisterBlogServiceServer;
         Println "Connecting to MongoDB..."; Connect "mongodb://localhost:27017"],
        initial))
  ∧ (listen e ≠ None ∨ connect e ≠ None →
     (∃ msg, (main e initial).1.1 = Fatalf msg)
     ∧ (∀ c a, Ping c a ∉ (main e initial).1.2)
     ∧ (GoServe ∉ (main e initial).1.2)).
Proof.
  split; [|split].
  - intros g. unfold main.
    destruct (listen e), (connect e), (db g) eqn:D, (ping e), (signal e), (close e);
      cbn; congruence.
  - intros L C. unfold main. rewrite L, C. reflexivity.
  - intros H. unfold main.
    destruct (listen e) as [le|];
      [cbn; split; [eauto|]; split; [intros c a; not_in_trace | not_in_trace]|].
    destruct (connect e) as [ce|];
      [cbn; split; [eauto|]; split; [intros c a; not_in_trace | not_in_trace]|].
    destruct H as [H|H]; contradiction.
Qed.

Lemma db_stays_nil_and_ping_panics_witness :
  (main all_well initial).1.1 = Crash NilPointerDereference
  ∧ ∃ msg, (main listen_refused initial).1.1 = Fatalf msg.
Proof.
  split.
  - exact (f_equal (λ x, x.1.1)
             (proj1 (proj2 (db_stays_nil_and_ping_panics all_well)) eq_refl eq_refl)).
  - apply (proj2 (proj2 (db_stays_nil_and_ping_panics listen_refused))).
    left. discriminate.
Defined.

End Startup.

(** ** The collection keeps its documents apart

    Whatever program runs, by induction on the program: no call of the
    model gives two documents the same [_id]. *)

Lemma insert_one_unique_ids (e : Env) (document : bson.M) (ds : list bson.M) :
  unique_ids ds → unique_ids (insert_one e document ds).2.
Proof.
  intros U. unfold insert_one. case_decide as Hex; [exact U|]. cbn [snd].
  unfold unique_ids, ids. rewrite fmap_app. apply NoDup_app.
  split; [exact U|]. split; [|apply NoDup_singleton].
  intros x Hx Hin. apply list_elem_of_singleton in Hin. subst x.
  apply list_elem_of_fmap in Hx as (d & Hd & Hin).
  apply Hex, Exists_exists. exists d. split; [exact Hin|].
  cbn in Hd. rewrite lookup_insert_eq in Hd. symmetry. exact Hd.
Qed.

Lemma delete_one_unique_ids (filter : bson.M) (ds : list bson.M) :
  unique_ids ds → unique_ids (delete_one filter ds).2.
Proof.
  intros U. unfold delete_one.
  destruct (list_find _ ds) as [[i d]|]; [|exact U]. cbn [snd].
  unfold unique_ids, ids. rewrite list_fmap_delete.
  eapply sublist_NoDup; [exact U | apply sublist_delete].
Qed.

Lemma perform_unique_ids {X : Type} (op : Op X) (e : Env) (ds : list bson.M) :
  unique_ids ds → unique_ids (perform op e ds).2.
Proof.
  intros U. destruct op as [document|filter|filter update opts|filter].
  - cbn [perform]. destruct (fault e); [destruct (applied e)|]; cbn [snd];
      try exact U; apply insert_one_unique_ids, U.
  - cbn [perform]. destruct (fault e); exact U.
  - unfold unique_ids. rewrite perform_update_ids. exact U.
  - cbn [perform]. destruct (fault e); [destruct (applied e)|]; cbn [snd];
      try exact U; apply delete_one_unique_ids, U.
Qed.

Lemma run_unique_ids {A : Type} (p : Prog A) (w : World) :
  unique_ids (docs w) → unique_ids (docs (run p w).2).
Proof.
  revert w. induction p as [a|X op k IH]; intros w U; [exact U|].
  cbn [run].
  pose proof (perform_unique_ids op (now w) (docs w) U) as U'.
  destruct (perform op (now w) (docs w)) as [x ds]. apply IH. exact U'.
Qed.

(** With distinct identifiers, the document that a filter on [_id] finds
    is the only one with that identifier. *)
Lemma found_is_only (oid : ObjectID) (ds : list bson.M) (i j : nat) (d d' : bson.M) :
  unique_ids ds →
  ds !! i = Some d → d !! "_id" = Some (VObjectID oid) →
  ds !! j = Some d' → d' !! "_id" = Some (VObjectID oid) →
  i = j.
Proof.
  intros U Hi Hd Hj Hd'.
  apply (NoDup_lookup (ids ds) i j (Some (VObjectID oid)) U);
    unfold ids; rewrite list_lookup_fmap.
  - rewrite Hi. cbn. f_equal. exact Hd.
  - rewrite Hj. cbn. f_equal. exact Hd'.
Qed.

(** * Further properties of the handlers *)

(** ** What a handler leaves in the collection *)

Lemma run_ReadBlog_docs (w : World) (req : blogpb.ReadBlogReq) :
  docs (run (ReadBlog req) w).2 = docs w.
Proof.
  unfold ReadBlog. destruct (ObjectIDFromHex _) as [oid [err|]]; [reflexivity|].
  cbn [mbind mret Prog_bind Prog_ret bind call run perform].
  destruct (fault (now w)); [destruct (Decode _ _); reflexivity|].
  destruct (Decode _ _); reflexivity.
Qed.

(** X1: [ReadBlog] only reads.  Whatever the request and the world, the
    documents of the collection are the same after it, and it has sent the
    collection at most one call, a [FindOne]. *)
Theorem ReadBlog_leaves_collection (w : World) (req : blogpb.ReadBlogReq) :
  docs (run (ReadBlog req) w).2 = docs w
  ∧ ∃ l, log (run (ReadBlog req) w).2 = (log w ++ l)%list
         ∧ (length l ≤ 1)%nat
         ∧ Forall (λ c, ∃ filter, c = existT SingleResult (FindOne filter)) l.
Proof.
  unfold ReadBlog. destruct (ObjectIDFromHex _) as [oid [err|]].
  - cbn [mret Prog_ret run snd]. split; [reflexivity|].
    exists []. rewrite app_nil_r. repeat split; [cbn; lia | constructor].
  - cbn [mbind mret Prog_bind Prog_ret bind call run perform].
    assert (E : ∀ x : SingleResult,
              (run (match Decode x BlogItem_zero with
                    | inl err0 =>
                        Ret (Error (status.Errorf codes.NotFound
                               (Sprintf "Could not find blog with Object Id %s:%v"
                                  [ArgStr (blogpb.ReadBlogReq_Id req); ArgErr err0])))
                    | inr data =>
                        Ret (Return {| blogpb.ReadBlogRes_Blog :=
                               Some {| blogpb.Id := Hex oid;
                                       blogpb.AuthorId := AuthorID data;
                                       blogpb.Title := Title data;
                                       blogpb.Content := Content data |} |})
                    end)
                 {| docs := docs w;
                    log := (log w ++ [existT _ (FindOne {[ "_id" := VObjectID oid ]})])%list;
                    env := env w |}).2
              = {| docs := docs w;
                   log := (log w ++ [existT _ (FindOne {[ "_id" := VObjectID oid ]})])%list;
                   env := env w |}).
    { intros x. destruct (Decode x BlogItem_zero); reflexivity. }
    destruct (fault (now w)); rewrite E; cbn [docs log];
      (split; [reflexivity|]); eexists; (split; [reflexivity|]);
      (split; [cbn; lia|]); repeat constructor; eauto.
Qed.

Lemma run_CreateBlog (w : World) (req : blogpb.CreateBlogReq) :
  (run (CreateBlog req) w).1
  = eval (λ X op, (perform op (now w) (docs w)).1) (CreateBlog req)
  ∧ docs (run (CreateBlog req) w).2
    = (perform (InsertOne (create_doc (blogpb.CreateBlogReq_Blog req))) (now w) (docs w)).2.
Proof.
  unfold CreateBlog. rewrite Marshal_create.
  cbn [mbind mret Prog_bind Prog_ret bind call run eval].
  destruct (perform _ _ _) as [[err|result] ds]; cbn [fst snd]; [split; reflexivity|].
  destruct (assert_ObjectID _); [|split; reflexivity].
  destruct (blogpb.CreateBlogReq_Blog req); split; reflexivity.
Qed.

(** What the collection answers to the insertion of [CreateBlog]. *)
Lemma insert_one_create (e : Env) (blog : option blogpb.Blog) (ds : list bson.M) :
  insert_one e (create_doc blog) ds
  = if decide (present (fresh e) ds)
    then (inl (WriteException "E11000 duplicate key error"), ds)
    else (inr {| InsertedID := VObjectID (fresh e) |},
          (ds ++ [<["_id" := VObjectID (fresh e)]> (create_doc blog)])%list).
Proof.
  unfold insert_one. rewrite create_doc_no_id. unfold present.
  repeat case_decide; try contradiction; reflexivity.
Qed.

Lemma perform_InsertOne_create (e : Env) (blog : option blogpb.Blog) (ds : list bson.M) :
  perform (InsertOne (create_doc blog)) e ds
  = match fault e with
    | Some err =>
        (inl err, if applied e then (insert_one e (create_doc blog) ds).2 else ds)
    | None =>
        if decide (present (fresh e) ds)
        then (inl (WriteException "E11000 duplicate key error"), ds)
        else (inr {| InsertedID := VObjectID (fresh e) |},
              (ds ++ [<["_id" := VObjectID (fresh e)]> (create_doc blog)])%list)
    end.
Proof.
  cbn [perform]. destruct (fault e); [reflexivity|]. apply insert_one_create.
Qed.

Lemma present_found (oid : ObjectID) (ds : list bson.M) :
  present oid ds → ∃ i d, list_find (Matches (by_id oid)) ds = Some (i, d).
Proof.
  intros H. destruct (list_find (Matches (by_id oid)) ds) as [[i d]|] eqn:L; [eauto|].
  exfalso. apply list_find_None in L. apply Exists_exists in H as (d & Hin & Hd).
  rewrite Forall_forall in L. apply (L d Hin), Matches_by_id, Hd.
Qed.

(** X2: a status error and the collection.  When the call of a handler
    did not fail, or failed without having been carried out, a handler
    that replies with a status error has left the documents as they were.
    A status error does not say that nothing was written, though: when the
    call had been carried out before its error came back, [DeleteBlog]
    replies [NotFound] and the document is gone. *)
Theorem status_error_and_collection (w : World) (st : status.Status) :
  (fault (now w) = None ∨ applied (now w) = false →
   (∀ req, (run (CreateBlog req) w).1 = Error st →
           docs (run (CreateBlog req) w).2 = docs w)
   ∧ (∀ req, (run (ReadBlog req) w).1 = Error st →
             docs (run (ReadBlog req) w).2 = docs w)
   ∧ (∀ req, (run (UpdateBlog req) w).1 = Error st →
             docs (run (UpdateBlog req) w).2 = docs w)
   ∧ (∀ req, (run (DeleteBlog req) w).1 = Error st →
             docs (run (DeleteBlog req) w).2 = docs w))
  ∧ (∀ s oid err,
       ObjectIDFromHex s = (oid, None) →
       fault (now w) = Some err → applied (now w) = true →
       present oid (docs w) →
       (run (DeleteBlog {| blogpb.DeleteBlogReq_Id := s |}) w).1
       = Error (status.Errorf codes.NotFound
                  (Sprintf "Couldn't find/delete blog with id %s : %v"
                     [ArgStr s; ArgErr err]))
       ∧ S (length (docs (run (DeleteBlog {| blogpb.DeleteBlogReq_Id := s |}) w).2))
         = length (docs w)).
Proof.
  split.
  - intros Q. split; [|split; [|split]].
    + intros req. destruct (run_CreateBlog w req) as [E1 E2]. rewrite E1, E2.
      rewrite CreateBlog_eval, perform_InsertOne_create.
      destruct (fault (now w)) as [err|].
      { destruct Q as [Q|Q]; [discriminate | rewrite Q; reflexivity]. }
      case_decide; [reflexivity|]. cbn.
      destruct (blogpb.CreateBlogReq_Blog req); discriminate.
    + intros req _. apply run_ReadBlog_docs.
    + intros [blog]. destruct (run_UpdateBlog w blog) as [E1 E2]. rewrite E1, E2.
      rewrite UpdateBlog_eval.
      set (oid := (ObjectIDFromHex (blogpb.GetId blog)).1).
      unfold update_op. cbn [perform].
      destruct (fault (now w)) as [err|] eqn:F.
      { destruct Q as [Q|Q]; [discriminate | rewrite Q; reflexivity]. }
      unfold find_one_and_update.
      destruct (list_find (Matches (by_id oid)) (docs w)) as [[i d]|] eqn:L;
        [|reflexivity].
      rewrite apply_update_set.
      case_decide as R; [|exfalso; apply R; reflexivity]. cbn [fst Decode].
      destruct (find_present _ _ _ _ L) as [_ Hid].
      rewrite (Unmarshal_updated _ _ _ Hid). discriminate.
    + intros [s]. destruct (ObjectIDFromHex s) as [oid [err|]] eqn:P.
      * rewrite (DeleteBlog_unparseable _ _ _ P). reflexivity.
      * destruct (run_DeleteBlog w s oid P) as [E1 E2]. rewrite E1, E2.
        rewrite (DeleteBlog_eval _ _ _ P). fold (by_id oid). cbn [perform].
        destruct (fault (now w)) as [err|].
        { destruct Q as [Q|Q]; [discriminate | rewrite Q; reflexivity]. }
        unfold delete_one.
        destruct (list_find _ _) as [[i d]|]; [discriminate|reflexivity].
  - intros s oid err P F A H.
    destruct (run_DeleteBlog w s oid P) as [E1 E2]. rewrite E1, E2.
    rewrite (DeleteBlog_eval _ _ _ P). fold (by_id oid). cbn [perform].
    rewrite F, A. cbn [fst snd]. split; [reflexivity|].
    unfold delete_one. destruct (present_found oid (docs w) H) as (i & d & L).
    rewrite L. cbn [snd]. apply list_find_Some in L as (Hi & _).
    rewrite length_delete by eauto. apply lookup_lt_Some in Hi. lia.
Qed.

Lemma status_error_and_collection_witness :
  S (length (docs (run (DeleteBlog {| blogpb.DeleteBlogReq_Id := Hex oid1 |})
                     lost_reply_world).2))
  = length (docs lost_reply_world).
Proof.
  assert (H : present oid1 (docs lost_reply_world)).
  { apply Exists_cons_hd. reflexivity. }
  exact (proj2 (proj2 (status_error_and_collection lost_reply_world
    (status.Errorf codes.NotFound (Sprintf EmptyString [])))
    (Hex oid1) oid1 (NetworkError "context deadline exceeded")
    eq_refl eq_refl eq_refl H)).
Defined.

(** X3: a [CreateBlog] request that carries no blog is not refused.  When
    the insertion goes through, a document with an empty author, content
    and title is stored under the generated identifier, and the handler
    then panics on the nil blog: the document stays in the collection. *)
Theorem CreateBlog_without_blog_inserts_then_panics (w : World) :
  fault (now w) = None →
  ¬ present (fresh (now w)) (docs w) →
  (run (CreateBlog {| blogpb.CreateBlogReq_Blog := None |}) w).1
  = Panics NilPointerDereference
  ∧ docs (run (CreateBlog {| blogpb.CreateBlogReq_Blog := None |}) w).2
    = (docs w ++ [ {[ "_id" := VObjectID (fresh (now w));
                       "author_id" := VString EmptyString;
                       "content" := VString EmptyString;
                       "title" := VString EmptyString ]} ])%list.
Proof.
  intros F H.
  destruct (run_CreateBlog w {| blogpb.CreateBlogReq_Blog := None |}) as [E1 E2].
  rewrite E1, E2, CreateBlog_eval. cbn [blogpb.CreateBlogReq_Blog].
  rewrite perform_InsertOne_create, F.
  case_decide; [contradiction|]. split; reflexivity.
Qed.

Lemma CreateBlog_without_blog_inserts_then_panics_witness :
  (run (CreateBlog {| blogpb.CreateBlogReq_Blog := None |}) empty_world).1
  = Panics NilPointerDereference
  ∧ length (docs (run (CreateBlog {| blogpb.CreateBlogReq_Blog := None |}) empty_world).2) = 1.
Proof.
  assert (H : ¬ present (fresh (now empty_world)) (docs empty_world)).
  { intros H. apply Exists_nil in H. exact H. }
  destruct (CreateBlog_without_blog_inserts_then_panics empty_world eq_refl H) as [E1 E2].
  split; [exact E1|]. rewrite E2. reflexivity.
Defined.

(** X4: against the collection the only panic of a handler is that of
    [CreateBlog] on a request without blog: [ReadBlog], [UpdateBlog] and
    [DeleteBlog] never panic, and the key that the collection returns for
    an insertion is always an [ObjectID]. *)
Theorem only_panic_is_CreateBlog_without_blog (w : World) (p : Panic) :
  (∀ req, (run (CreateBlog req) w).1 = Panics p →
          blogpb.CreateBlogReq_Blog req = None ∧ p = NilPointerDereference)
  ∧ (∀ req, (run (ReadBlog req) w).1 ≠ Panics p)
  ∧ (∀ req, (run (UpdateBlog req) w).1 ≠ Panics p)
  ∧ (∀ req, (run (DeleteBlog req) w).1 ≠ Panics p).
Proof.
  split; [|split; [|split]].
  - intros req. rewrite (proj1 (run_CreateBlog w req)), CreateBlog_eval.
    rewrite perform_InsertOne_create.
    destruct (fault (now w)); [discriminate|].
    case_decide; [discriminate|]. cbn.
    destruct (blogpb.CreateBlogReq_Blog req); [discriminate|].
    intros [= <-]. auto.
  - intros [s]. destruct (ObjectIDFromHex s) as [oid [err|]] eqn:P.
    + rewrite (ReadBlog_unparseable _ _ _ P). discriminate.
    + rewrite (run_ReadBlog w s oid P), (ReadBlog_eval _ _ _ P).
      destruct (Decode _ _); discriminate.
  - intros [blog]. rewrite (proj1 (run_UpdateBlog w blog)), UpdateBlog_eval.
    destruct (Decode _ _); discriminate.
  - intros [s]. destruct (ObjectIDFromHex s) as [oid [err|]] eqn:P.
    + rewrite (DeleteBlog_unparseable _ _ _ P). discriminate.
    + rewrite (proj1 (run_DeleteBlog w s oid P)), (DeleteBlog_eval _ _ _ P).
      destruct (perform _ _ _).1; discriminate.
Qed.

Lemma only_panic_is_CreateBlog_without_blog_witness :
  blogpb.CreateBlogReq_Blog {| blogpb.CreateBlogReq_Blog := None |} = None
  ∧ NilPointerDereference = NilPointerDereference.
Proof.
  exact (proj1 (only_panic_is_CreateBlog_without_blog empty_world NilPointerDereference)
           {| blogpb.CreateBlogReq_Blog := None |} eq_refl).
Defined.

(** ** Deleting and updating a document that is there *)

Lemma run_env {A : Type} (p : Prog A) (w : World) : env (run p w).2 = env w.
Proof.
  revert w. induction p as [a|X op k IH]; intros w; [reflexivity|].
  cbn [run]. destruct (perform op (now w) (docs w)) as [x ds]. rewrite IH. reflexivity.
Qed.

Lemma run_UpdateBlog_log (w : World) (blog : option blogpb.Blog) :
  log (run (UpdateBlog {| blogpb.UpdateBlogReq_Blog := blog |}) w).2
  = (log w ++ [update_call (ObjectIDFromHex (blogpb.GetId blog)).1 blog])%list.
Proof.
  unfold UpdateBlog, update_call, update_op, update_fields, by_id.
  cbn [blogpb.UpdateBlogReq_Blog].
  destruct (ObjectIDFromHex (blogpb.GetId blog)) as [oid err].
  cbn [mbind mret Prog_bind Prog_ret bind call run fst].
  destruct (perform _ _ _) as [x ds]. destruct (Decode x _); reflexivity.
Qed.

Lemma run_UpdateBlog_found (w : World) (blog : option blogpb.Blog) (i : nat) (d : bson.M) :
  fault (now w) = None →
  list_find (Matches (by_id (ObjectIDFromHex (blogpb.GetId blog)).1)) (docs w) = Some (i, d) →
  (run (UpdateBlog {| blogpb.UpdateBlogReq_Blog := blog |}) w).1
  = Return {| blogpb.UpdateBlogRes_Blog :=
      Some {| blogpb.Id := Hex (ObjectIDFromHex (blogpb.GetId blog)).1;
              blogpb.AuthorId := blogpb.GetAuthorId blog;
              blogpb.Title := blogpb.GetTitle blog;
              blogpb.Content := blogpb.GetContent blog |} |}
  ∧ docs (run (UpdateBlog {| blogpb.UpdateBlogReq_Blog := blog |}) w).2
    = <[i := update_fields blog ∪ d]> (docs w).
Proof.
  intros F L. destruct (run_UpdateBlog w blog) as [E1 E2]. rewrite E1, E2.
  rewrite UpdateBlog_eval, (perform_update_found _ _ _ _ _ _ F L). cbn [fst snd Decode].
  destruct (find_present _ _ _ _ L) as [_ Hid].
  rewrite (Unmarshal_updated _ _ _ Hid). split; reflexivity.
Qed.

Lemma absent_after_delete (oid : ObjectID) (ds : list bson.M) (i : nat) (d : bson.M) :
  unique_ids ds → ds !! i = Some d → d !! "_id" = Some (VObjectID oid) →
  ¬ present oid (delete i ds).
Proof.
  intros U Hi Hd Hp. apply Exists_exists in Hp as (d' & Hin & Hd').
  apply list_elem_of_lookup in Hin as [j Hj].
  destruct (decide (j < i)) as [Lt|Ge].
  - rewrite list_lookup_delete_lt in Hj by exact Lt.
    pose proof (found_is_only oid ds i j d d' U Hi Hd Hj Hd'). lia.
  - rewrite list_lookup_delete_ge in Hj by lia.
    pose proof (found_is_only oid ds i (S j) d d' U Hi Hd Hj Hd'). lia.
Qed.

Lemma run_DeleteBlog_log (w : World) (s : string) (oid : ObjectID) :
  ObjectIDFromHex s = (oid, None) →
  log (run (DeleteBlog {| blogpb.DeleteBlogReq_Id := s |}) w).2
  = (log w ++ [existT _ (DeleteOne (by_id oid))])%list.
Proof.
  intros H. unfold DeleteBlog. cbn [blogpb.DeleteBlogReq_Id]. rewrite H.
  cbn [mbind mret Prog_bind Prog_ret bind call run]. fold (by_id oid).
  destruct (perform _ _ _) as [[err|r] ds]; reflexivity.
Qed.

(** X5: [DeleteBlog] of an identifier that is in the collection, when its
    call does not fail, replies with [Success] set and removes one
    document, the first with that identifier, leaving the others in their
    order; in a collection with distinct identifiers the identifier is then
    gone, and a [ReadBlog] of it that follows replies [NotFound]. *)
Theorem DeleteBlog_removes_the_document (w : World) (s : string) (oid : ObjectID) :
  ObjectIDFromHex s = (oid, None) →
  fault (now w) = None →
  present oid (docs w) →
  let after := run (DeleteBlog {| blogpb.DeleteBlogReq_Id := s |}) w in
  after.1 = Return {| blogpb.Success := true |}
  ∧ ∃ (i : nat) (d : bson.M),
      docs w !! i = Some d
      ∧ d !! "_id" = Some (VObjectID oid)
      ∧ docs after.2 = delete i (docs w)
      ∧ (unique_ids (docs w) →
         ¬ present oid (docs after.2)
         ∧ code_of (run (ReadBlog {| blogpb.ReadBlogReq_Id := s |}) after.2).1
           = Some codes.NotFound).
Proof.
  intros P F H after. unfold after.
  destruct (run_DeleteBlog w s oid P) as [E1 E2]. rewrite E1, E2.
  rewrite (DeleteBlog_eval _ _ _ P). fold (by_id oid). cbn [perform]. rewrite F.
  unfold delete_one.
  destruct (present_found oid (docs w) H) as (i & d & L). rewrite L. cbn [fst snd].
  split; [reflexivity|].
  destruct (find_present _ _ _ _ L) as [Hi Hd].
  exists i, d. split; [exact Hi|]. split; [exact Hd|]. split; [reflexivity|].
  intros U. pose proof (absent_after_delete oid (docs w) i d U Hi Hd) as A.
  split; [exact A|].
  rewrite (run_ReadBlog _ s oid P), (ReadBlog_eval _ _ oid P).
  set (w1 := (run (DeleteBlog {| blogpb.DeleteBlogReq_Id := s |}) w).2).
  assert (D : docs w1 = delete i (docs w)).
  { unfold w1. rewrite E2. fold (by_id oid). cbn [perform]. rewrite F.
    unfold delete_one. rewrite L. reflexivity. }
  rewrite <- D in A.
  destruct (perform_FindOne_absent (now w1) oid (docs w1) A) as [err E].
  unfold by_id in E. rewrite E. reflexivity.
Qed.

Lemma DeleteBlog_removes_the_document_witness :
  (run (DeleteBlog {| blogpb.DeleteBlogReq_Id := Hex oid1 |})
     {| docs := [<["_id" := VObjectID oid1]> (create_doc (Some hello))];
        log := []; env := quiet (λ _, oid1) |}).1
  = Return {| blogpb.Success := true |}.
Proof.
  assert (H : present oid1 [<["_id" := VObjectID oid1]> (create_doc (Some hello))]).
  { apply Exists_cons_hd. reflexivity. }
  exact (proj1 (DeleteBlog_removes_the_document
    {| docs := [<["_id" := VObjectID oid1]> (create_doc (Some hello))];
       log := []; env := quiet (λ _, oid1) |}
    (Hex oid1) oid1 eq_refl eq_refl H)).
Defined.

(** X6: [UpdateBlog] on an identifier that is in the collection, when its
    call does not fail, returns a response with the identifier and the
    author, title and content of the request. *)
Theorem UpdateBlog_present_succeeds (w : World) (blog : option blogpb.Blog) (oid : ObjectID) :
  ObjectIDFromHex (blogpb.GetId blog) = (oid, None) →
  fault (now w) = None →
  present oid (docs w) →
  (run (UpdateBlog {| blogpb.UpdateBlogReq_Blog := blog |}) w).1
  = Return {| blogpb.UpdateBlogRes_Blog :=
      Some {| blogpb.Id := Hex oid;
              blogpb.AuthorId := blogpb.GetAuthorId blog;
              blogpb.Title := blogpb.GetTitle blog;
              blogpb.Content := blogpb.GetContent blog |} |}.
Proof.
  intros P F H. destruct (present_found oid (docs w) H) as (i & d & L).
  assert (L' : list_find (Matches (by_id (ObjectIDFromHex (blogpb.GetId blog)).1)) (docs w)
               = Some (i, d)) by (rewrite P; exact L).
  rewrite (proj1 (run_UpdateBlog_found w blog i d F L')), P. reflexivity.
Qed.

Lemma UpdateBlog_present_succeeds_witness :
  (run (UpdateBlog {| blogpb.UpdateBlogReq_Blog :=
          Some {| blogpb.Id := Hex oid1; blogpb.AuthorId := "u1";
                  blogpb.Title := "Hi"; blogpb.Content := "World" |} |})
     {| docs := [<["_id" := VObjectID oid1]> (create_doc (Some hello))];
        log := []; env := quiet (λ _, oid1) |}).1
  = Return {| blogpb.UpdateBlogRes_Blog :=
      Some {| blogpb.Id := Hex oid1; blogpb.AuthorId := "u1";
              blogpb.Title := "Hi"; blogpb.Content := "World" |} |}.
Proof.
  assert (H : present oid1 [<["_id" := VObjectID oid1]> (create_doc (Some hello))]).
  { apply Exists_cons_hd. reflexivity. }
  exact (UpdateBlog_present_succeeds
    {| docs := [<["_id" := VObjectID oid1]> (create_doc (Some hello))];
       log := []; env := quiet (λ _, oid1) |}
    (Some {| blogpb.Id := Hex oid1; blogpb.AuthorId := "u1";
             blogpb.Title := "Hi"; blogpb.Content := "World" |})
    oid1 eq_refl eq_refl H).
Defined.

Lemma list_find_updated (oid : ObjectID) (ds : list bson.M) (i : nat) (d d' : bson.M) :
  list_find (Matches (by_id oid)) ds = Some (i, d) →
  d' !! "_id" = Some (VObjectID oid) →
  list_find (Matches (by_id oid)) (<[i := d']> ds) = Some (i, d').
Proof.
  intros L Hd'. apply list_find_Some in L as (Hi & _ & Hbefore).
  apply list_find_insert_Some. right. left.
  split; [reflexivity|]. split; [reflexivity|].
  split; [eapply lookup_lt_Some, Hi|].
  split; [apply Matches_by_id, Hd'|]. exact Hbefore.
Qed.

(** X7: an update is read back.  When neither call fails and the
    identifier is in the collection, [ReadBlog] after [UpdateBlog] returns
    the author, title and content of the update request under the same
    identifier. *)
Theorem UpdateBlog_then_ReadBlog (w : World) (blog : option blogpb.Blog) (oid : ObjectID) :
  ObjectIDFromHex (blogpb.GetId blog) = (oid, None) →
  fault (now w) = None →
  fault (env w (S (length (log w)))) = None →
  present oid (docs w) →
  (run (ReadBlog {| blogpb.ReadBlogReq_Id := blogpb.GetId blog |})
     (run (UpdateBlog {| blogpb.UpdateBlogReq_Blog := blog |}) w).2).1
  = Return {| blogpb.ReadBlogRes_Blog :=
      Some {| blogpb.Id := Hex oid;
              blogpb.AuthorId := blogpb.GetAuthorId blog;
              blogpb.Title := blogpb.GetTitle blog;
              blogpb.Content := blogpb.GetContent blog |} |}.
Proof.
  intros P F F' H. destruct (present_found oid (docs w) H) as (i & d & L).
  assert (L' : list_find (Matches (by_id (ObjectIDFromHex (blogpb.GetId blog)).1)) (docs w)
               = Some (i, d)) by (rewrite P; exact L).
  set (w1 := (run (UpdateBlog {| blogpb.UpdateBlogReq_Blog := blog |}) w).2).
  assert (D : docs w1 = <[i := update_fields blog ∪ d]> (docs w))
    by apply (run_UpdateBlog_found w blog i d F L').
  assert (N : fault (now w1) = None).
  { unfold now, w1. rewrite run_env, run_UpdateBlog_log, length_app, Nat.add_1_r. exact F'. }
  destruct (find_present _ _ _ _ L) as [_ Hid].
  assert (Hid' : (update_fields blog ∪ d) !! "_id" = Some (VObjectID oid))
    by (rewrite set_lookup; exact Hid).
  rewrite (run_ReadBlog w1 _ oid P), (ReadBlog_eval _ _ oid P).
  cbn [perform]. rewrite N. cbn [fst]. fold (by_id oid). unfold find_one.
  rewrite D, (list_find_updated oid (docs w) i d _ L Hid'). cbn [Decode].
  rewrite (Unmarshal_updated _ _ _ Hid). reflexivity.
Qed.

Lemma UpdateBlog_then_ReadBlog_witness :
  (run (ReadBlog {| blogpb.ReadBlogReq_Id := Hex oid1 |})
     (run (UpdateBlog {| blogpb.UpdateBlogReq_Blog :=
             Some {| blogpb.Id := Hex oid1; blogpb.AuthorId := "u1";
                     blogpb.Title := "Hi"; blogpb.Content := "World" |} |})
        {| docs := [<["_id" := VObjectID oid1]> (create_doc (Some hello))];
           log := []; env := quiet (λ _, oid1) |}).2).1
  = Return {| blogpb.ReadBlogRes_Blog :=
      Some {| blogpb.Id := Hex oid1; blogpb.AuthorId := "u1";
              blogpb.Title := "Hi"; blogpb.Content := "World" |} |}.
Proof.
  assert (H : present oid1 [<["_id" := VObjectID oid1]> (create_doc (Some hello))]).
  { apply Exists_cons_hd. reflexivity. }
  exact (UpdateBlog_then_ReadBlog
    {| docs := [<["_id" := VObjectID oid1]> (create_doc (Some hello))];
       log := []; env := quiet (λ _, oid1) |}
    (Some {| blogpb.Id := Hex oid1; blogpb.AuthorId := "u1";
             blogpb.Title := "Hi"; blogpb.Content := "World" |})
    oid1 eq_refl eq_refl eq_refl H).
Defined.

(** X8: an [UpdateBlog] whose identifier does not parse is carried out on
    the zero identifier.  If the collection holds a document whose [_id] is
    the zero [ObjectID] and the call does not fail, that document gets the
    author, title and content of the request, and the response carries the
    identifier of twenty-four zeros. *)
Theorem UpdateBlog_unparseable_id_overwrites_zero_document
    (w : World) (blog : option blogpb.Blog) (oid : ObjectID) (err : error) :
  ObjectIDFromHex (blogpb.GetId blog) = (oid, Some err) →
  fault (now w) = None →
  present NilObjectID (docs w) →
  (run (UpdateBlog {| blogpb.UpdateBlogReq_Blog := blog |}) w).1
  = Return {| blogpb.UpdateBlogRes_Blog :=
      Some {| blogpb.Id := "000000000000000000000000";
              blogpb.AuthorId := blogpb.GetAuthorId blog;
              blogpb.Title := blogpb.GetTitle blog;
              blogpb.Content := blogpb.GetContent blog |} |}
  ∧ ∃ (i : nat) (d : bson.M),
      docs w !! i = Some d
      ∧ d !! "_id" = Some (VObjectID NilObjectID)
      ∧ docs (run (UpdateBlog {| blogpb.UpdateBlogReq_Blog := blog |}) w).2
        = <[i := update_fields blog ∪ d]> (docs w).
Proof.
  intros P F H. pose proof (ObjectIDFromHex_err _ _ _ P) as ->.
  destruct (present_found NilObjectID (docs w) H) as (i & d & L).
  assert (L' : list_find (Matches (by_id (ObjectIDFromHex (blogpb.GetId blog)).1)) (docs w)
               = Some (i, d)) by (rewrite P; exact L).
  destruct (run_UpdateBlog_found w blog i d F L') as [E1 E2].
  rewrite E1, E2, P. split; [reflexivity|].
  destruct (find_present _ _ _ _ L) as [Hi Hd]. eauto.
Qed.

Lemma UpdateBlog_unparseable_id_overwrites_zero_document_witness :
  (run (UpdateBlog {| blogpb.UpdateBlogReq_Blog :=
          Some {| blogpb.Id := "xyz"; blogpb.AuthorId := "u2";
                  blogpb.Title := "Hi"; blogpb.Content := "there" |} |})
     {| docs := [<["_id" := VObjectID NilObjectID]> (create_doc (Some hello))];
        log := []; env := quiet (λ _, oid1) |}).1
  = Return {| blogpb.UpdateBlogRes_Blog :=
      Some {| blogpb.Id := "000000000000000000000000"; blogpb.AuthorId := "u2";
              blogpb.Title := "Hi"; blogpb.Content := "there" |} |}.
Proof.
  assert (H : present NilObjectID
                [<["_id" := VObjectID NilObjectID]> (create_doc (Some hello))]).
  { apply Exists_cons_hd. reflexivity. }
  exact (proj1 (UpdateBlog_unparseable_id_overwrites_zero_document
    {| docs := [<["_id" := VObjectID NilObjectID]> (create_doc (Some hello))];
       log := []; env := quiet (λ _, oid1) |}
    (Some {| blogpb.Id := "xyz"; blogpb.AuthorId := "u2";
             blogpb.Title := "Hi"; blogpb.Content := "there" |})
    NilObjectID (InvalidByteError "x") eq_refl eq_refl H)).
Defined.




(** ** Identifiers on the wire *)

Lemma ReadBlog_calls (h : Driver) (s : string) (oid : ObjectID) :
  ObjectIDFromHex s = (oid, None) →
  calls h (ReadBlog {| blogpb.ReadBlogReq_Id := s |}) = [existT _ (FindOne (by_id oid))].
Proof.
  intros H. unfold ReadBlog. cbn [blogpb.ReadBlogReq_Id]. rewrite H. cbn.
  destruct (Decode _ _); reflexivity.
Qed.

Lemma DeleteBlog_calls (h : Driver) (s : string) (oid : ObjectID) :
  ObjectIDFromHex s = (oid, None) →
  calls h (DeleteBlog {| blogpb.DeleteBlogReq_Id := s |}) = [existT _ (DeleteOne (by_id oid))].
Proof.
  intros H. unfold DeleteBlog. cbn [blogpb.DeleteBlogReq_Id]. rewrite H. cbn.
  destruct (h _ _); reflexivity.
Qed.

(** X10: the identifiers that the handlers return are well formed.
    Whatever the driver answers, the identifier in a response of
    [CreateBlog] or [UpdateBlog] has twenty-four characters and parses
    without error, and the identifier in a response of [ReadBlog] parses to
    the [ObjectID] that the identifier of the request parses to. *)
Theorem response_ids_parse (h : Driver) :
  (∀ req res, eval h (CreateBlog req) = Return res →
     String.length (blogpb.GetId (blogpb.CreateBlogRes_Blog res)) = 24
     ∧ (ObjectIDFromHex (blogpb.GetId (blogpb.CreateBlogRes_Blog res))).2 = None)
  ∧ (∀ req res, eval h (UpdateBlog req) = Return res →
       String.length (blogpb.GetId (blogpb.UpdateBlogRes_Blog res)) = 24
       ∧ (ObjectIDFromHex (blogpb.GetId (blogpb.UpdateBlogRes_Blog res))).2 = None)
  ∧ (∀ req res, eval h (ReadBlog req) = Return res →
       ObjectIDFromHex (blogpb.GetId (blogpb.ReadBlogRes_Blog res))
       = ObjectIDFromHex (blogpb.ReadBlogReq_Id req)
       ∧ (ObjectIDFromHex (blogpb.ReadBlogReq_Id req)).2 = None).
Proof.
  split; [|split].
  - intros req res. rewrite CreateBlog_eval.
    destruct (h _ _) as [err|[v]]; [discriminate|].
    destruct v; try discriminate. cbn.
    destruct (blogpb.CreateBlogReq_Blog req); [|discriminate]. intros [= <-]. cbn.
    rewrite Hex_length, ObjectIDFromHex_Hex. split; reflexivity.
  - intros [blog] res. rewrite UpdateBlog_eval.
    destruct (Decode _ _); [discriminate|]. intros [= <-]. cbn.
    rewrite Hex_length, ObjectIDFromHex_Hex. split; reflexivity.
  - intros [s] res. cbn [blogpb.ReadBlogReq_Id].
    destruct (ObjectIDFromHex s) as [oid [err|]] eqn:P.
    + rewrite (ReadBlog_unparseable _ _ _ P). discriminate.
    + rewrite (ReadBlog_eval _ _ _ P).
      destruct (Decode _ _); [discriminate|]. intros [= <-]. cbn.
      rewrite ObjectIDFromHex_Hex. split; reflexivity.
Qed.

Lemma response_ids_parse_witness :
  String.length (blogpb.GetId (Some (blogpb.set_Id hello (Hex oid1)))) = 24
  ∧ (ObjectIDFromHex (blogpb.GetId (Some (blogpb.set_Id hello (Hex oid1))))).2 = None.
Proof.
  exact (proj1 (response_ids_parse (scripted (VObjectID oid1) None))
           {| blogpb.CreateBlogReq_Blog := Some hello |}
           {| blogpb.CreateBlogRes_Blog := Some (blogpb.set_Id hello (Hex oid1)) |}
           eq_refl).
Defined.

(** X11: two request identifiers that parse to the same [ObjectID], such
    as the upper-case and the lower-case writing of one identifier, are the
    same to [ReadBlog] and [DeleteBlog]: the same call is made, and the
    same response or a status error of the same code comes back. *)
Theorem same_ObjectID_same_outcome (h : Driver) (s1 s2 : string) (oid : ObjectID) :
  ObjectIDFromHex s1 = (oid, None) →
  ObjectIDFromHex s2 = (oid, None) →
  (calls h (ReadBlog {| blogpb.ReadBlogReq_Id := s1 |})
   = calls h (ReadBlog {| blogpb.ReadBlogReq_Id := s2 |})
   ∧ response_of (eval h (ReadBlog {| blogpb.ReadBlogReq_Id := s1 |}))
     = response_of (eval h (ReadBlog {| blogpb.ReadBlogReq_Id := s2 |}))
   ∧ code_of (eval h (ReadBlog {| blogpb.ReadBlogReq_Id := s1 |}))
     = code_of (eval h (ReadBlog {| blogpb.ReadBlogReq_Id := s2 |})))
  ∧ (calls h (DeleteBlog {| blogpb.DeleteBlogReq_Id := s1 |})
     = calls h (DeleteBlog {| blogpb.DeleteBlogReq_Id := s2 |})
     ∧ response_of (eval h (DeleteBlog {| blogpb.DeleteBlogReq_Id := s1 |}))
       = response_of (eval h (DeleteBlog {| blogpb.DeleteBlogReq_Id := s2 |}))
     ∧ code_of (eval h (DeleteBlog {| blogpb.DeleteBlogReq_Id := s1 |}))
       = code_of (eval h (DeleteBlog {| blogpb.DeleteBlogReq_Id := s2 |}))).
Proof.
  intros P1 P2. split.
  - rewrite (ReadBlog_calls h _ _ P1), (ReadBlog_calls h _ _ P2).
    rewrite (ReadBlog_eval h _ _ P1), (ReadBlog_eval h _ _ P2).
    destruct (Decode _ _); repeat split; reflexivity.
  - rewrite (DeleteBlog_calls h _ _ P1), (DeleteBlog_calls h _ _ P2).
    rewrite (DeleteBlog_eval h _ _ P1), (DeleteBlog_eval h _ _ P2).
    destruct (h _ _); repeat split; reflexivity.
Qed.

Lemma same_ObjectID_same_outcome_witness :
  calls (scripted VNull None)
    (ReadBlog {| blogpb.ReadBlogReq_Id := "5F00AB01020304050607FEFF" |})
  = calls (scripted VNull None)
      (ReadBlog {| blogpb.ReadBlogReq_Id := "5f00ab01020304050607feff" |}).
Proof.
  exact (proj1 (proj1 (same_ObjectID_same_outcome (scripted VNull None)
    "5F00AB01020304050607FEFF" "5f00ab01020304050607feff" oid1 eq_refl eq_refl))).
Defined.

(** X12: whatever the driver answers, a handler calls the collection at
    most once; with an identifier that parses, the one call of [ReadBlog]
    is [FindOne] and the one call of [DeleteBlog] is [DeleteOne], both with
    the filter on [_id] alone. *)
Theorem handlers_call_at_most_once (h : Driver) :
  (∀ (hd : service.Handler) (req : service.req_type hd),
     (length (calls h (service.handle hd req)) ≤ 1)%nat)
  ∧ (∀ s oid, ObjectIDFromHex s = (oid, None) →
       calls h (ReadBlog {| blogpb.ReadBlogReq_Id := s |})
       = [existT _ (FindOne {[ "_id" := VObjectID oid ]})]
       ∧ calls h (DeleteBlog {| blogpb.DeleteBlogReq_Id := s |})
         = [existT _ (DeleteOne {[ "_id" := VObjectID oid ]})]).
Proof.
  split.
  - intros [] req; unfold service.handle; cbn [service.req_type service.res_type] in *.
    + rewrite CreateBlog_calls. cbn. lia.
    + destruct req as [s]. destruct (ObjectIDFromHex s) as [oid [err|]] eqn:P.
      * rewrite (ReadBlog_unparseable _ _ _ P). cbn. lia.
      * rewrite (ReadBlog_calls h _ _ P). cbn. lia.
    + destruct req as [blog]. rewrite UpdateBlog_calls. cbn. lia.
    + destruct req as [s]. destruct (ObjectIDFromHex s) as [oid [err|]] eqn:P.
      * rewrite (DeleteBlog_unparseable _ _ _ P). cbn. lia.
      * rewrite (DeleteBlog_calls h _ _ P). cbn. lia.
  - intros s oid P. split; [apply ReadBlog_calls | apply DeleteBlog_calls]; exact P.
Qed.

Lemma handlers_call_at_most_once_witness :
  calls (scripted VNull None) (ReadBlog {| blogpb.ReadBlogReq_Id := Hex oid1 |})
  = [existT _ (FindOne {[ "_id" := VObjectID oid1 ]})].
Proof.
  exact (proj1 (proj2 (handlers_call_at_most_once (scripted VNull None))
                  (Hex oid1) oid1 eq_refl)).
Defined.

(** ** Start-up, continued *)

Section StartupMore.

Import startup.

(** An event that differs from each event of an explicit trace. *)
Ltac off_trace :=
  let H := fresh "H" in
  intros H;
  repeat (apply elem_of_cons in H as [H|H]; [discriminate H|]);
  apply elem_of_nil in H; exact H.

(** X13: the program as it starts, with [db] nil, never serves.  Whatever
    the world does, the run of [main] ends by [log.Fatalf] or by a panic;
    the serving goroutine is never started, no ping is ever sent, nothing
    is disconnected, and [db] and [blogdb] are still nil at the end. *)
Theorem program_never_serves (e : World) :
  terminated (main e initial).1.1
  ∧ (GoServe ∉ (main e initial).1.2)
  ∧ (∀ c a, Ping c a ∉ (main e initial).1.2)
  ∧ (∀ c, Disconnect c ∉ (main e initial).1.2)
  ∧ (main e initial).2 = initial.
Proof.
  unfold main. destruct (listen e); [|destruct (connect e)]; cbn;
    (split; [exact I|]); (split; [off_trace|]);
    (split; [intros c a; off_trace|]); (split; [intros c; off_trace|reflexivity]).
Qed.

(** X14: the handlers never run on a nil collection.  In every run of
    [main], from any value of the variables, if the serving goroutine is
    started then [db] holds a client and [blogdb] has been bound to the
    collection [blog] of the database [mydb] of that client; and in a run
    that does not start it the variables are left as they were. *)
Theorem serving_has_collection (e : World) (g : Globals) :
  (GoServe ∈ (main e g).1.2 →
   ∃ c, db g = Some c
        ∧ blogdb (main e g).2
          = Some {| client := c; database := "mydb"; name := "blog" |})
  ∧ (GoServe ∉ (main e g).1.2 → (main e g).2 = g).
Proof.
  unfold main.
  destruct (listen e); [cbn; split; [intros H; exfalso; revert H; off_trace | reflexivity]|].
  destruct (connect e); [cbn; split; [intros H; exfalso; revert H; off_trace | reflexivity]|].
  destruct (db g) as [c|] eqn:D;
    [|cbn; split; [intros H; exfalso; revert H; off_trace | reflexivity]].
  destruct (ping e); [cbn; split; [intros H; exfalso; revert H; off_trace | reflexivity]|].
  destruct (signal e), (close e); cbn;
    (split; [intros _; exists c; split; reflexivity|]);
    intros H; exfalso; apply H; repeat constructor.
Qed.

Lemma serving_has_collection_witness :
  ∃ c, db {| db := Some {| uri := "mongodb://localhost:27017" |}; blogdb := None |} = Some c
       ∧ blogdb (main all_well
                   {| db := Some {| uri := "mongodb://localhost:27017" |};
                      blogdb := None |}).2
         = Some {| client := c; database := "mydb"; name := "blog" |}.
Proof.
  apply (proj1 (serving_has_collection all_well
           {| db := Some {| uri := "mongodb://localhost:27017" |}; blogdb := None |})).
  cbn. repeat constructor.
Defined.

End StartupMore.

(** * The generated stubs *)

Section Stubs.

Import pb.

Lemma eval_bind_Ret {A B : Type} (h : Driver) (m : Prog A) (f : A → B) :
  eval h (bind m (λ r, Ret (f r))) = f (eval h m).
Proof. induction m as [a|X op k IH]; [reflexivity|]. cbn. apply IH. Qed.

Lemma calls_bind_Ret {A B : Type} (h : Driver) (m : Prog A) (f : A → B) :
  calls h (bind m (λ r, Ret (f r))) = calls h m.
Proof. induction m as [a|X op k IH]; [reflexivity|]. cbn. f_equal. apply IH. Qed.

Context {Req Res : Type}.
Variables (zero : Req) (inj : Req → Message) (as_ : Message → option Req).
Variables (out : Res → Message).
Variables (method : BlogServiceServer → Req → Prog (Reply Res)) (fullMethod : string).

Lemma unary_dec_fails (srv : Server) (dec : Decoder)
    (interceptor : option UnaryServerInterceptor) (err : GoError) :
  dec _ zero = inl err →
  unary zero inj as_ out method fullMethod srv dec interceptor = Ret (Fails err).
Proof. intros H. unfold unary. rewrite H. reflexivity. Qed.

Lemma unary_transparent :
  (∀ x, as_ (inj x) = Some x) →
  transparent (unary zero inj as_ out method fullMethod) zero out method.
Proof.
  intros R s dec h req interceptor D [->| ->]; unfold unary; rewrite D.
  - split; [apply eval_bind_Ret | apply calls_bind_Ret].
  - unfold forwarding. rewrite R.
    split; [apply eval_bind_Ret | apply calls_bind_Ret].
Qed.

Lemma unary_interceptor (srv : Server) (dec : Decoder)
    (interceptor : UnaryServerInterceptor) (req : Req) :
  dec _ zero = inr req →
  ∃ handler,
    unary zero inj as_ out method fullMethod srv dec (Some interceptor)
    = interceptor (inj req) {| info_Server := srv; FullMethod := fullMethod |} handler
    ∧ (∀ m, as_ m = None → handler m = Ret (Panicking InterfaceConversion))
    ∧ (srv = NotImplementing → ∀ m, handler m = Ret (Panicking InterfaceConversion)).
Proof.
  intros D. unfold unary. rewrite D. eexists. split; [reflexivity|]. split.
  - intros m E. destruct srv; [rewrite E|]; reflexivity.
  - intros -> m. reflexivity.
Qed.

Lemma unary_NotImplementing (dec : Decoder) (req : Req) :
  dec _ zero = inr req →
  unary zero inj as_ out method fullMethod NotImplementing dec None
  = Ret (Panicking InterfaceConversion).
Proof. intros D. unfold unary. rewrite D. reflexivity. Qed.

End Stubs.

Section StubProperties.

Import pb.

(** The five entries of the descriptor, one at a time. *)
Ltac each_method H :=
  repeat (apply elem_of_cons in H as [H|H];
          [injection H as -> ->|]);
  [ .. | apply elem_of_nil in H; contradiction].

Ltac unfold_stubs :=
  unfold _BlogService_CreateBlog_Handler, _BlogService_ReadBlog_Handler,
    _BlogService_UpdateBlog_Handler, _BlogService_DeleteBlog_Handler,
    _BlogService_ListBlog_Handler, unary.

(** X16: a request that does not decode goes nowhere.  Each of the five
    stubs of the descriptor, whatever the server and the interceptor,
    returns the error of the decoder as it is, without calling the
    interceptor, the server or the collection. *)
Theorem stub_decode_failure
    (name : string) (stub : StubHandler) (srv : Server) (dec : Decoder)
    (interceptor : option UnaryServerInterceptor) (err : GoError) (h : Driver) :
  (name, stub) ∈ Methods →
  (∀ (T : Type) (x : T), dec T x = inl err) →
  stub srv dec interceptor = Ret (Fails err)
  ∧ calls h (stub srv dec interceptor) = [].
Proof.
  intros H D.
  assert (E : stub srv dec interceptor = Ret (Fails err)).
  { each_method H; apply unary_dec_fails, D. }
  rewrite E. split; reflexivity.
Qed.

Lemma stub_decode_failure_witness :
  _BlogService_ReadBlog_Handler NotImplementing
    (failing (Plain (NetworkError "unexpected EOF"))) None
  = Ret (Fails (Plain (NetworkError "unexpected EOF"))).
Proof.
  refine (proj1 (stub_decode_failure "ReadBlog" _BlogService_ReadBlog_Handler
    NotImplementing (failing (Plain (NetworkError "unexpected EOF"))) None
    (Plain (NetworkError "unexpected EOF")) (scripted VNull None) _ _)).
  - unfold Methods. repeat constructor.
  - intros T x. reflexivity.
Defined.

(** X17: the stubs add nothing to the methods of the server.  On a request
    that decodes, without interceptor or with an interceptor that forwards
    the request, each stub gives the reply of the server method on the
    decoded request, as a message, a status error or a panic, and makes
    exactly the calls on the collection that the method makes. *)
Theorem stubs_are_transparent :
  transparent _BlogService_CreateBlog_Handler
    {| blogpb.CreateBlogReq_Blog := None |} MCreateBlogRes srv_CreateBlog
  ∧ transparent _BlogService_ReadBlog_Handler
      {| blogpb.ReadBlogReq_Id := EmptyString |} MReadBlogRes srv_ReadBlog
  ∧ transparent _BlogService_UpdateBlog_Handler
      {| blogpb.UpdateBlogReq_Blog := None |} MUpdateBlogRes srv_UpdateBlog
  ∧ transparent _BlogService_DeleteBlog_Handler
      {| blogpb.DeleteBlogReq_Id := EmptyString |} MDeleteBlogRes srv_DeleteBlog
  ∧ transparent _BlogService_ListBlog_Handler
      blogpb.Build_ListBlogReq MListBlogReq srv_ListBlog.
Proof.
  split; [|split; [|split; [|split]]]; apply unary_transparent; reflexivity.
Qed.

Lemma stubs_are_transparent_witness :
  eval (scripted (VObjectID oid1) None)
    (_BlogService_DeleteBlog_Handler
       (Implementing (with_ListBlog (λ _, unimplemented "method ListBlog not implemented")))
       leaving (Some forwarding))
  = of_reply MDeleteBlogRes
      (eval (scripted (VObjectID oid1) None)
         (DeleteBlog {| blogpb.DeleteBlogReq_Id := EmptyString |})).
Proof.
  exact (proj1 (proj1 (proj2 (proj2 (proj2 stubs_are_transparent)))
    (with_ListBlog (λ _, unimplemented "method ListBlog not implemented"))
    leaving (scripted (VObjectID oid1) None)
    {| blogpb.DeleteBlogReq_Id := EmptyString |} (Some forwarding)
    eq_refl (or_intror eq_refl))).
Defined.

(** X18: the unimplemented server.  Through each of the five stubs, on a
    request that decodes and without interceptor,
    [UnimplementedBlogServiceServer] replies with a status error of code
    [Unimplemented] and never calls the collection. *)
Theorem UnimplementedBlogServiceServer_replies_Unimplemented
    (name : string) (stub : StubHandler) (dec : Decoder) (h : Driver) :
  (name, stub) ∈ Methods →
  (∀ (T : Type) (x : T), ∃ y, dec T x = inr y) →
  ∃ msg,
    eval h (stub (Implementing UnimplementedBlogServiceServer) dec None)
    = Fails (OfStatus (status.Errorf codes.Unimplemented msg))
    ∧ calls h (stub (Implementing UnimplementedBlogServiceServer) dec None) = [].
Proof.
  intros H D.
  each_method H; unfold_stubs;
    match goal with |- context [dec ?T ?x] => destruct (D T x) as [y ->] end;
    eexists; split; reflexivity.
Qed.

Lemma UnimplementedBlogServiceServer_replies_Unimplemented_witness :
  ∃ msg,
    eval (scripted VNull None)
      (_BlogService_ListBlog_Handler (Implementing UnimplementedBlogServiceServer)
         leaving None)
    = Fails (OfStatus (status.Errorf codes.Unimplemented msg))
    ∧ calls (scripted VNull None)
        (_BlogService_ListBlog_Handler (Implementing UnimplementedBlogServiceServer)
           leaving None) = [].
Proof.
  refine (UnimplementedBlogServiceServer_replies_Unimplemented
            "ListBlog" _BlogService_ListBlog_Handler leaving (scripted VNull None) _ _).
  - unfold Methods. repeat constructor.
  - intros T x. exists x. reflexivity.
Defined.

(** X19: the type assertions of the stubs.  On a request that decodes
    and a server value that does not have the five methods of the
    interface, each stub panics, without reaching any method or the
    collection, when there is no interceptor and when the interceptor
    calls the handler it is given, with whatever message; an interceptor
    that answers without calling the handler gets its answer through, even
    on such a server.  On any server, the handler that a stub gives to the
    interceptor panics in the same way when it is called with a message
    that is not a request of the method of the stub. *)
Theorem stub_type_assertions
    (name : string) (stub : StubHandler) (dec : Decoder) (h : Driver) :
  (name, stub) ∈ Methods →
  (∀ (T : Type) (x : T), ∃ y, dec T x = inr y) →
  (eval h (stub NotImplementing dec None) = Panicking InterfaceConversion
   ∧ calls h (stub NotImplementing dec None) = [])
  ∧ (∀ m, eval h (stub NotImplementing dec (Some (handing m)))
          = Panicking InterfaceConversion
          ∧ calls h (stub NotImplementing dec (Some (handing m))) = [])
  ∧ (∀ f, ∃ req info,
       stub NotImplementing dec (Some (observing f)) = Ret (f req info))
  ∧ (∀ srv m, request_of m ≠ Some name →
       eval h (stub srv dec (Some (handing m))) = Panicking InterfaceConversion
       ∧ calls h (stub srv dec (Some (handing m))) = []).
Proof.
  intros H D.
  each_method H; unfold_stubs;
    match goal with |- context [dec ?T ?x] => destruct (D T x) as [y ->] end;
    (split; [split; reflexivity|]);
    (split; [intros m; split; reflexivity|]);
    (split; [intros f; eexists _, _; reflexivity|]);
    intros [] []; cbn; intros N; try (split; reflexivity); contradiction.
Qed.

Lemma stub_type_assertions_witness :
  eval (scripted VNull None) (_BlogService_CreateBlog_Handler NotImplementing leaving None)
  = Panicking InterfaceConversion.
Proof.
  refine (proj1 (proj1 (stub_type_assertions "CreateBlog" _BlogService_CreateBlog_Handler
            leaving (scripted VNull None) _ _))).
  - unfold Methods. repeat constructor.
  - intros T x. exists x. reflexivity.
Defined.

(** X20: what an interceptor is given.  Each of the five stubs is in the
    descriptor under its method name, and it calls the interceptor with
    the request that was decoded and with the full method name made of a
    slash, the service name of the descriptor, a slash and that method
    name. *)
Theorem descriptor_names_agree :
  announces "CreateBlog" _BlogService_CreateBlog_Handler
    {| blogpb.CreateBlogReq_Blog := None |} MCreateBlogReq
  ∧ announces "ReadBlog" _BlogService_ReadBlog_Handler
      {| blogpb.ReadBlogReq_Id := EmptyString |} MReadBlogReq
  ∧ announces "UpdateBlog" _BlogService_UpdateBlog_Handler
      {| blogpb.UpdateBlogReq_Blog := None |} MUpdateBlogReq
  ∧ announces "DeleteBlog" _BlogService_DeleteBlog_Handler
      {| blogpb.DeleteBlogReq_Id := EmptyString |} MDeleteBlogReq
  ∧ announces "ListBlog" _BlogService_ListBlog_Handler
      blogpb.Build_ListBlogReq MListBlogReq.
Proof.
  repeat apply conj; try (unfold Methods; repeat constructor; fail);
    intros srv dec y f D; unfold_stubs; rewrite D; reflexivity.
Qed.

Lemma descriptor_names_agree_witness :
  _BlogService_UpdateBlog_Handler NotImplementing leaving
    (Some (observing (λ req info, Value req)))
  = Ret (Value (MUpdateBlogReq {| blogpb.UpdateBlogReq_Blog := None |})).
Proof.
  exact (proj2 (proj1 (proj2 (proj2 descriptor_names_agree)))
           NotImplementing leaving {| blogpb.UpdateBlogReq_Blog := None |}
           (λ req info, Value req) eq_refl).
Defined.

End StubProperties.

(** * The collection under the handlers *)

Lemma perform_update_length (e : Env) (filter : bson.M) (update : gmap string bson.M)
    (opts : FindOneAndUpdateOptions) (ds : list bson.M) :
  length (perform (FindOneAndUpdate filter update opts) e ds).2 = length ds.
Proof.
  pose proof (f_equal length (perform_update_ids e filter update opts ds)) as H.
  unfold ids in H. rewrite !length_fmap in H. exact H.
Qed.

Lemma delete_one_length (filter : bson.M) (ds : list bson.M) :
  (length (delete_one filter ds).2 ≤ length ds)%nat
  ∧ (length ds ≤ S (length (delete_one filter ds).2))%nat.
Proof.
  unfold delete_one. destruct (list_find _ _) as [[i d]|] eqn:L; [|cbn; lia].
  cbn [snd]. apply list_find_Some in L as (Hi & _).
  rewrite length_delete by eauto. apply lookup_lt_Some in Hi. lia.
Qed.

Lemma insert_one_length (e : Env) (document : bson.M) (ds : list bson.M) :
  (length ds ≤ length (insert_one e document ds).2)%nat
  ∧ (length (insert_one e document ds).2 ≤ S (length ds))%nat.
Proof.
  unfold insert_one. case_decide; cbn [snd]; [lia|]. rewrite length_app. cbn. lia.
Qed.

(** X22: the number of documents.  [ReadBlog] and [UpdateBlog] never add
    or remove a document, an update of an identifier that is not there
    creates nothing; [DeleteBlog] removes at most one document and adds
    none; [CreateBlog] adds at most one and removes none. *)
Theorem document_count (w : World) :
  (∀ req, length (docs (run (ReadBlog req) w).2) = length (docs w))
  ∧ (∀ req, length (docs (run (UpdateBlog req) w).2) = length (docs w))
  ∧ (∀ req, (length (docs (run (DeleteBlog req) w).2) ≤ length (docs w))%nat
            ∧ (length (docs w) ≤ S (length (docs (run (DeleteBlog req) w).2)))%nat)
  ∧ (∀ req, (length (docs w) ≤ length (docs (run (CreateBlog req) w).2))%nat
            ∧ (length (docs (run (CreateBlog req) w).2) ≤ S (length (docs w)))%nat).
Proof.
  split; [|split; [|split]].
  - intros req. rewrite run_ReadBlog_docs. reflexivity.
  - intros [blog]. rewrite (proj2 (run_UpdateBlog w blog)).
    unfold update_op. apply perform_update_length.
  - intros [s]. destruct (ObjectIDFromHex s) as [oid [err|]] eqn:P.
    + rewrite (DeleteBlog_unparseable _ _ _ P). cbn. lia.
    + rewrite (proj2 (run_DeleteBlog w s oid P)). cbn [perform].
      destruct (fault (now w)); [destruct (applied (now w))|]; cbn [snd];
        try lia; apply delete_one_length.
  - intros req. rewrite (proj2 (run_CreateBlog w req)). cbn [perform].
    destruct (fault (now w)); [destruct (applied (now w))|]; cbn [snd];
      try lia; apply insert_one_length.
Qed.

(** ** Reading a document that the handlers did not write *)

Lemma Unmarshal_strings (oid : ObjectID) (d : bson.M) :
  d !! "_id" = Some (VObjectID oid) →
  absent_or_string (d !! "author_id") →
  absent_or_string (d !! "content") →
  absent_or_string (d !! "title") →
  Unmarshal d BlogItem_zero
  = inr {| ID := oid;
           AuthorID := string_of (d !! "author_id");
           Content := string_of (d !! "content");
           Title := string_of (d !! "title") |}.
Proof.
  intros Hid Ha Hc Ht. unfold Unmarshal, decode_oid, decode_string. rewrite Hid.
  destruct (d !! "author_id") as [[]|]; try contradiction;
    destruct (d !! "content") as [[]|]; try contradiction;
    destruct (d !! "title") as [[]|]; try contradiction; reflexivity.
Qed.

Lemma Unmarshal_refused (oid : ObjectID) (d : bson.M) :
  d !! "_id" = Some (VObjectID oid) →
  integer_or_boolean (d !! "author_id")
  ∨ integer_or_boolean (d !! "content")
  ∨ integer_or_boolean (d !! "title") →
  ∃ err, Unmarshal d BlogItem_zero = inl err.
Proof.
  intros Hid H. unfold Unmarshal, decode_oid, decode_string. rewrite Hid.
  destruct (d !! "author_id") as [[]|];
    destruct (d !! "content") as [[]|];
    destruct (d !! "title") as [[]|];
    cbn in H; try (exfalso; tauto); eauto.
Qed.

(** X23: [ReadBlog] returns the first document with the identifier, as it
    is stored.  When the call does not fail and the author, content and
    title of that document are strings or are missing, the response
    carries them, an empty string standing for a missing one, under the
    lower-case hexadecimal identifier. *)
Theorem ReadBlog_returns_stored_fields
    (w : World) (s : string) (oid : ObjectID) (i : nat) (d : bson.M) :
  ObjectIDFromHex s = (oid, None) →
  fault (now w) = None →
  list_find (Matches (by_id oid)) (docs w) = Some (i, d) →
  absent_or_string (d !! "author_id") →
  absent_or_string (d !! "content") →
  absent_or_string (d !! "title") →
  (run (ReadBlog {| blogpb.ReadBlogReq_Id := s |}) w).1
  = Return {| blogpb.ReadBlogRes_Blog :=
      Some {| blogpb.Id := Hex oid;
              blogpb.AuthorId := string_of (d !! "author_id");
              blogpb.Title := string_of (d !! "title");
              blogpb.Content := string_of (d !! "content") |} |}.
Proof.
  intros P F L Ha Hc Ht.
  rewrite (run_ReadBlog w s oid P), (ReadBlog_eval _ _ oid P).
  cbn [perform]. rewrite F. cbn [fst]. fold (by_id oid). unfold find_one. rewrite L.
  cbn [Decode]. destruct (find_present _ _ _ _ L) as [_ Hid].
  rewrite (Unmarshal_strings oid d Hid Ha Hc Ht). reflexivity.
Qed.

Lemma ReadBlog_returns_stored_fields_witness :
  (run (ReadBlog {| blogpb.ReadBlogReq_Id := "5F00AB01020304050607FEFF" |})
     {| docs := [ {[ "_id" := VObjectID oid1; "title" := VString "only a title" ]} ];
        log := []; env := quiet (λ _, oid1) |}).1
  = Return {| blogpb.ReadBlogRes_Blog :=
      Some {| blogpb.Id := "5f00ab01020304050607feff";
              blogpb.AuthorId := EmptyString;
              blogpb.Title := "only a title";
              blogpb.Content := EmptyString |} |}.
Proof.
  exact (ReadBlog_returns_stored_fields
    {| docs := [ {[ "_id" := VObjectID oid1; "title" := VString "only a title" ]} ];
       log := []; env := quiet (λ _, oid1) |}
    "5F00AB01020304050607FEFF" oid1 0
    {[ "_id" := VObjectID oid1; "title" := VString "only a title" ]}
    eq_refl eq_refl eq_refl I I I).
Defined.

(** X24: a document that is there can be reported as not found.  When the
    call does not fail and the first document with the identifier holds an
    integer or a boolean as author, content or title, decoding fails and
    [ReadBlog] replies [NotFound], although the call found the document. *)
Theorem ReadBlog_NotFound_for_undecodable_document
    (w : World) (s : string) (oid : ObjectID) (i : nat) (d : bson.M) :
  ObjectIDFromHex s = (oid, None) →
  fault (now w) = None →
  list_find (Matches (by_id oid)) (docs w) = Some (i, d) →
  integer_or_boolean (d !! "author_id")
  ∨ integer_or_boolean (d !! "content")
  ∨ integer_or_boolean (d !! "title") →
  code_of (run (ReadBlog {| blogpb.ReadBlogReq_Id := s |}) w).1 = Some codes.NotFound
  ∧ present oid (docs w).
Proof.
  intros P F L H.
  destruct (find_present _ _ _ _ L) as [Hi Hid]. split.
  - rewrite (run_ReadBlog w s oid P), (ReadBlog_eval _ _ oid P).
    cbn [perform]. rewrite F. cbn [fst]. fold (by_id oid). unfold find_one. rewrite L.
    cbn [Decode]. destruct (Unmarshal_refused oid d Hid H) as [err ->]. reflexivity.
  - apply Exists_exists. exists d. split; [|exact Hid].
    apply list_elem_of_lookup. eauto.
Qed.

Lemma ReadBlog_NotFound_for_undecodable_document_witness :
  code_of (run (ReadBlog {| blogpb.ReadBlogReq_Id := Hex oid1 |})
     {| docs := [ {[ "_id" := VObjectID oid1; "author_id" := VNull;
                     "title" := VInt32 7 ]} ];
        log := []; env := quiet (λ _, oid1) |}).1
  = Some codes.NotFound.
Proof.
  refine (proj1 (ReadBlog_NotFound_for_undecodable_document
    {| docs := [ {[ "_id" := VObjectID oid1; "author_id" := VNull;
                    "title" := VInt32 7 ]} ];
       log := []; env := quiet (λ _, oid1) |}
    (Hex oid1) oid1 0
    {[ "_id" := VObjectID oid1; "author_id" := VNull; "title" := VInt32 7 ]}
    eq_refl eq_refl eq_refl _)).
  right. right. exact I.
Defined.

(** * What an update of an existing entity does *)

(** C4: an update of an existing entity is carried out, and it changes
    three fields only.  For a request that carries the blog [b]: when the
    call does not fail and the identifier of [b] is in the collection,
    [UpdateBlog] returns a response; and whenever it returns a response,
    one document [d], the first whose [_id] is that identifier, has been
    replaced in place by [d'], in which the author, the title and the
    content are those of [b] and every other key, [_id] among them, is as
    in [d]; no other document has changed; and the response carries the
    three values of [b] with the hexadecimal form of that unchanged
    identifier.  Whatever the request, and whether the update succeeds or
    not, the [_id] of every document of the collection is what it was. *)
Theorem UpdateBlog_replaces_exactly_three_fields (w : World) (b : blogpb.Blog) :
  let req := {| blogpb.UpdateBlogReq_Blog := Some b |} in
  let oid := (ObjectIDFromHex (blogpb.Id b)).1 in
  let after := docs (run (UpdateBlog req) w).2 in
  let response :=
    {| blogpb.UpdateBlogRes_Blog :=
         Some {| blogpb.Id := Hex oid;
                 blogpb.AuthorId := blogpb.AuthorId b;
                 blogpb.Title := blogpb.Title b;
                 blogpb.Content := blogpb.Content b |} |} in
  (fault (now w) = None → present oid (docs w) →
   (run (UpdateBlog req) w).1 = Return response)
  ∧ (∀ res, (run (UpdateBlog req) w).1 = Return res →
       res = response
       ∧ ∃ (i : nat) (d d' : bson.M),
           docs w !! i = Some d
           ∧ d !! "_id" = Some (VObjectID oid)
           ∧ after = <[i := d']> (docs w)
           ∧ (∀ j, j ≠ i → after !! j = docs w !! j)
           ∧ d' !! "author_id" = Some (VString (blogpb.AuthorId b))
           ∧ d' !! "title" = Some (VString (blogpb.Title b))
           ∧ d' !! "content" = Some (VString (blogpb.Content b))
           ∧ (∀ k, k ≠ "author_id" → k ≠ "title" → k ≠ "content" → d' !! k = d !! k)
           ∧ d' !! "_id" = d !! "_id")
  ∧ (∀ r : blogpb.UpdateBlogReq, ids (docs (run (UpdateBlog r) w).2) = ids (docs w)).
Proof.
  intros req oid after response.
  assert (Found : ∀ i d, fault (now w) = None →
            list_find (Matches (by_id oid)) (docs w) = Some (i, d) →
            (run (UpdateBlog req) w).1 = Return response
            ∧ after = <[i := update_fields (Some b) ∪ d]> (docs w)).
  { intros i d F L. exact (run_UpdateBlog_found w (Some b) i d F L). }
  split; [|split].
  - intros F H. destruct (present_found oid (docs w) H) as (i & d & L).
    apply (Found i d F L).
  - intros res R.
    destruct (fault (now w)) as [err|] eqn:F.
    { exfalso. revert R. unfold req.
      rewrite (proj1 (run_UpdateBlog w (Some b))), UpdateBlog_eval.
      destruct (perform_update_failed (now w) oid (Some b) (docs w)) as [e E];
        [left; rewrite F; discriminate|].
      cbn [blogpb.GetId]. fold oid. rewrite E. discriminate. }
    destruct (list_find (Matches (by_id oid)) (docs w)) as [[i d]|] eqn:L.
    2:{ exfalso. revert R. unfold req.
        rewrite (proj1 (run_UpdateBlog w (Some b))), UpdateBlog_eval.
        destruct (perform_update_failed (now w) oid (Some b) (docs w)) as [e E];
          [right; exact L|].
        cbn [blogpb.GetId]. fold oid. rewrite E. discriminate. }
    destruct (Found i d eq_refl eq_refl) as [E1 E2].
    rewrite E1 in R. injection R as <-. split; [reflexivity|].
    destruct (find_present _ _ _ _ L) as [Hi Hid].
    exists i, d, (update_fields (Some b) ∪ d).
    split; [exact Hi|]. split; [exact Hid|]. split; [exact E2|].
    split; [intros j Hj; rewrite E2; apply list_lookup_insert_ne; congruence|].
    repeat (split; [rewrite set_lookup; reflexivity|]).
    split.
    + intros k K1 K2 K3. rewrite set_lookup. repeat case_decide; congruence.
    + rewrite set_lookup. reflexivity.
  - intros [blog]. rewrite (proj2 (run_UpdateBlog w blog)).
    unfold update_op. apply perform_update_ids.
Qed.

Lemma UpdateBlog_replaces_exactly_three_fields_witness :
  (run (UpdateBlog {| blogpb.UpdateBlogReq_Blog := Some retitled |}) one_blog_world).1
  = Return {| blogpb.UpdateBlogRes_Blog := Some retitled |}
  ∧ ∃ (i : nat) (d d' : bson.M),
      docs one_blog_world !! i = Some d
      ∧ docs (run (UpdateBlog {| blogpb.UpdateBlogReq_Blog := Some retitled |})
                one_blog_world).2
        = <[i := d']> (docs one_blog_world)
      ∧ d' !! "title" = Some (VString "Hi")
      ∧ d' !! "_id" = d !! "_id".
Proof.
  assert (H : present oid1 (docs one_blog_world)).
  { apply Exists_cons_hd. reflexivity. }
  pose proof (UpdateBlog_replaces_exactly_three_fields one_blog_world retitled) as T.
  cbv zeta in T. destruct T as (P & S & _).
  pose proof (P eq_refl H) as R. split; [exact R|].
  destruct (S _ R) as (_ & i & d & d' & Hi & _ & Ha & _ & _ & Ht & _ & _ & Hid).
  exists i, d, d'. split; [exact Hi|]. split; [exact Ha|]. split; [exact Ht | exact Hid].
Defined.

(** * The list operation *)

(** C9: [ListBlog] is declared and nothing serves it.  The schema gives
    the call its request type [ListBlogReq] as response type, and so does
    the generated code: whatever server implements the interface, a
    message that the stub of [ListBlog] returns is a [ListBlogReq], which
    has no field, never a [ListBlogRes].  The server type of
    [server/main.go] has four methods and no [ListBlog] (its text is a
    comment), so that it does not have the interface of the service, for
    want of that method alone; and on a value of that type the stub of
    [ListBlog] reaches no code of the server and makes no call on the
    collection: it panics on its type assertion, without interceptor or
    as soon as an interceptor calls the handler. *)
Theorem ListBlog_declared_not_served :
  (service.input <$> service.rpc "ListBlog" = Some service.TListBlogReq
   ∧ service.output <$> service.rpc "ListBlog" = Some service.TListBlogReq)
  ∧ (∀ (s : pb.BlogServiceServer) (dec : pb.Decoder) (h : Driver) (m : pb.Message),
       eval h (pb._BlogService_ListBlog_Handler (pb.Implementing s) dec None)
       = pb.Value m →
       ∃ r : blogpb.ListBlogReq, m = pb.MListBlogReq r)
  ∧ server.assert_BlogServiceServer server.BlogServiceServer = pb.NotImplementing
  ∧ (∀ list, server.assert_BlogServiceServer (server.plus_ListBlog list)
             = pb.Implementing (with_ListBlog list))
  ∧ (∀ (dec : pb.Decoder) (h : Driver),
       (∀ (T : Type) (x : T), ∃ y, dec T x = inr y) →
       let srv := server.assert_BlogServiceServer server.BlogServiceServer in
       (eval h (pb._BlogService_ListBlog_Handler srv dec None)
        = pb.Panicking InterfaceConversion
        ∧ calls h (pb._BlogService_ListBlog_Handler srv dec None) = [])
       ∧ ∀ m,
           eval h (pb._BlogService_ListBlog_Handler srv dec (Some (pb.handing m)))
           = pb.Panicking InterfaceConversion
           ∧ calls h (pb._BlogService_ListBlog_Handler srv dec (Some (pb.handing m)))
             = []).
Proof.
  split; [split; reflexivity|]. split.
  - intros s dec h m. unfold pb._BlogService_ListBlog_Handler, pb.unary.
    destruct (dec _ _) as [err|y]; [discriminate|].
    change (eval h (bind (pb.srv_ListBlog s y)
                      (λ r, Ret (pb.of_reply pb.MListBlogReq r))) = pb.Value m
            → ∃ r, m = pb.MListBlogReq r).
    rewrite eval_bind_Ret.
    destruct (eval h (pb.srv_ListBlog s y)) as [res| |]; try discriminate.
    intros [= <-]. eauto.
  - split; [reflexivity|]. split; [reflexivity|].
    intros dec h D srv. unfold srv, pb._BlogService_ListBlog_Handler, pb.unary.
    destruct (D _ blogpb.Build_ListBlogReq) as [y ->]. cbn.
    split; [split; reflexivity|]. intros m. split; reflexivity.
Qed.

Lemma ListBlog_declared_not_served_witness :
  eval (scripted VNull None)
    (pb._BlogService_ListBlog_Handler
       (server.assert_BlogServiceServer server.BlogServiceServer) pb.leaving None)
  = pb.Panicking InterfaceConversion.
Proof.
  refine (proj1 (proj1 (proj2 (proj2 (proj2 (proj2 ListBlog_declared_not_served)))
            pb.leaving (scripted VNull None) _))).
  intros T x. exists x. reflexivity.
Defined.
